(** * flake8-diff: the line parser, the filtering pass and the reporter

    A shallow embedding of [flake8diff/flake8.py] and the properties its
    specification states about it.

    Text is [string]; dictionaries with string keys are [gmap string _];
    the changed-line set of a file is a [gset string].  What the module
    does to the outside world (probing a VCS, running the linter, printing,
    logging) is recorded as a trace of events, and an exception is a
    result of the computation that ends it. *)

From Stdlib Require Import Ascii.
From stdpp Require Import gmap strings list.

Local Open Scope stdpp_scope.

(** ** Text as the Python runtime classifies it

    The regular expression classes [\s], [\d], [\w], the characters at which
    [str.splitlines] breaks and the white space [str.split] splits at are
    the runtime's, and differ between Python 2 and Python 3 outside the
    ASCII letters, digits, space and punctuation.  They are an interface
    here; the laws are the facts the module relies on and hold in both. *)

Class PyText := {
  re_space : ascii → bool;          (* \s *)
  re_digit : ascii → bool;          (* \d *)
  re_word : ascii → bool;           (* \w *)
  str_isspace : ascii → bool;       (* what str.split() splits at *)
  str_linebreak : ascii → bool;     (* what str.splitlines() breaks at *)
  space_is_space : re_space " " = true;
  colon_not_space : re_space ":" = false;
  digit_not_space : ∀ c, re_digit c = true → re_space c = false;
  colon_not_digit : re_digit ":" = false;
  space_not_digit : re_digit " " = false;
  space_not_word : re_word " " = false;
  lf_is_linebreak : str_linebreak "010" = true;
}.

(** The classes on 7-bit text. *)
Definition ascii_space (c : ascii) : bool :=
  match c with
  | "009" | "010" | "011" | "012" | "013" | " " => true
  | _ => false
  end%char.

Definition ascii_digit (c : ascii) : bool :=
  let n := nat_of_ascii c in (48 <=? n) && (n <=? 57).

Definition ascii_word (c : ascii) : bool :=
  let n := nat_of_ascii c in
  ((48 <=? n) && (n <=? 57)) || ((65 <=? n) && (n <=? 90))
  || ((97 <=? n) && (n <=? 122)) || (n =? 95).

Definition ascii_linebreak (c : ascii) : bool :=
  match c with
  | "010" | "013" => true
  | _ => false
  end%char.

#[export] Instance ascii_text : PyText := {|
  re_space := ascii_space;
  re_digit := ascii_digit;
  re_word := ascii_word;
  str_isspace := ascii_space;
  str_linebreak := ascii_linebreak;
  space_is_space := eq_refl;
  colon_not_space := eq_refl;
  digit_not_space := ltac:(intros [[] [] [] [] [] [] [] []]; cbv; congruence);
  colon_not_digit := eq_refl;
  space_not_digit := eq_refl;
  space_not_word := eq_refl;
  lf_is_linebreak := eq_refl;
|}.

(** ** Strings *)

Fixpoint string_forallb (p : ascii → bool) (s : string) : bool :=
  match s with
  | "" => true
  | String c s' => p c && string_forallb p s'
  end.

(** [s.startswith(l)], returning what follows [l]. *)
Fixpoint strip_prefix (l s : string) : option string :=
  match l, s with
  | "", _ => Some s
  | String a l', String b s' =>
      if decide (a = b) then strip_prefix l' s' else None
  | String _ _, "" => None
  end.

(** ** The regular expression engine

    [FLAKE8_LINE] is a sequence of literals and named groups, each group a
    greedy repetition of one character class.  [re_match] is [re.match] on
    such a pattern: anchored at the start of the text, not at its end, each
    repetition first taking as many characters as it can and giving them
    back one at a time while the rest of the pattern fails. *)

Inductive atom :=
  | Lit (l : string)
  | Group (name : string) (cls : ascii → bool) (min : nat).

Section Greedy.
Context {R : Type} (cls : ascii → bool) (min : nat).
(** [k taken rest] continues the match after the repetition took [taken]. *)
Variable k : string → string → option R.

Fixpoint greedy (taken s : string) : option R :=
  let stop := if decide (min ≤ String.length taken) then k taken s else None in
  match s with
  | String c s' =>
      if cls c then
        match greedy (taken +:+ String c "") s' with
        | Some r => Some r
        | None => stop
        end
      else stop
  | "" => stop
  end.
End Greedy.

Fixpoint re_match (re : list atom) : string → option (list (string * string)) :=
  match re with
  | [] => λ _, Some []
  | Lit l :: re' => λ s,
      match strip_prefix l s with
      | Some s' => re_match re' s'
      | None => None
      end
  | Group name cls min :: re' =>
      greedy cls min (λ taken rest, cons (name, taken) <$> re_match re' rest) ""
  end.

(** [m.groupdict()] *)
Definition groupdict (m : list (string * string)) : gmap string string :=
  list_to_map m.

Section Parser.
Context `{PyText}.

Definition not_space (c : ascii) : bool := negb (re_space c).
Definition word_or_digit (c : ascii) : bool := re_word c || re_digit c.
(** [.] without DOTALL: anything but a line feed. *)
Definition dot (c : ascii) : bool := negb (bool_decide (c = "010"%char)).

Definition FLAKE8_LINE : list atom :=
  [ Group "filename" not_space 1; Lit ":";
    Group "line_number" re_digit 1; Lit ":";
    Group "char_number" re_digit 1; Lit ": ";
    Group "error_code" word_or_digit 0; Lit " ";
    Group "description" dot 0 ].
End Parser.


(** [FLAKE8_LINE.match(line)], then [groupdict()] on a match. *)
Definition parse `{PyText} (line : string) : option (gmap string string) :=
  groupdict <$> re_match FLAKE8_LINE line.

(** [str.split()]: the maximal runs of characters that are not white space. *)
Fixpoint split_go `{PyText} (cur s : string) : list string :=
  let flush := if decide (cur = "") then [] else [cur] in
  match s with
  | "" => flush
  | String c s' =>
      if str_isspace c then flush ++ split_go "" s'
      else split_go (cur +:+ String c "") s'
  end.
Definition split `{PyText} : string → list string := split_go "".

(** [str.splitlines()]: a line ends at a line break, which is not part of
    it; a carriage return followed by a line feed is one break; text after
    the last break is a line when it is not empty. *)
Fixpoint splitlines_go `{PyText} (cur s : string) : list string :=
  match s with
  | "" => if decide (cur = "") then [] else [cur]
  | String c s' =>
      if str_linebreak c then
        cur :: match s' with
               | String c' s'' =>
                   if decide (c = "013"%char ∧ c' = "010"%char)
                   then splitlines_go "" s''
                   else splitlines_go "" s'
               | "" => []
               end
      else splitlines_go (cur +:+ String c "") s'
  end.
Definition splitlines `{PyText} : string → list string := splitlines_go "".

(** ** The run's surroundings *)

(** [self.options], read with [.get]: an absent key is [None]. *)
Record Options := {
  vcs : option string;
  flake8_options : option string;
  standard_flake8_output : bool;
  color_theme : option string;
  verbose : bool;
  debug : bool;
}.

(** Python's truth value of [options.get(key)] for a string option. *)
Definition truthy (o : option string) : bool :=
  match o with
  | Some s => negb (bool_decide (s = ""))
  | None => false
  end.

(** A VCS provider instantiated for this run's commits and options. *)
Record VCS := {
  is_used : bool;
  changed_files : list string;
  changed_lines : string → gset string;
}.

(** The attributes of the [blessings] terminal the themes use. *)
Class Terminal := {
  bold_underline : string → string;
  standout : string → string;
  bold : string → string;
  bold_red : string → string;
  magenta : string → string;
  yellow : string → string;
  blue : string → string;
}.

(** What the module imports or resolves when it is loaded: the path of the
    linter, the command runner of [utils] (its answer is the linter's
    standard output; a run in which the runner itself fails ends there and
    is not described) and the provider registry of [vcs], in the order in
    which its values are iterated. *)
Class Env := {
  FLAKE8 : string;
  _execute : list string → string;
  SUPPORTED_VCS : list (string * VCS);
}.

(** ** Effects: a trace of events and exceptions *)

Inductive event :=
  | Probe (name : string)                        (* is_used() of a provider *)
  | Exec (command : list string)                 (* one run of the linter *)
  | LogInfo (filename : string) (lines : gset string)  (* what is logged *)
  | Print (text : string).

Inductive exn :=
  | UnsupportedVCSError (name : string)
  | NotLocatableVCSError
  | KeyError (key : string).

Inductive result (A : Type) :=
  | Return (a : A)
  | Raise (e : exn).
Arguments Return {A} a.
Arguments Raise {A} e.

Definition M (A : Type) : Type := list event * result A.

#[export] Instance M_ret : MRet M := λ A a, ([], Return a).
#[export] Instance M_bind : MBind M := λ A B f m,
  match m with
  | (t, Return a) => let '(t', r) := f a in (t ++ t', r)
  | (t, Raise e) => (t, Raise e)
  end.

Definition emit (e : event) : M unit := ([e], Return ()).
Definition raise {A} (e : exn) : M A := ([], Raise e).
Definition trace {A} (m : M A) : list event := m.1.
Definition outcome {A} (m : M A) : result A := m.2.

(** [for x in l: acc = f(acc, x)] *)
Fixpoint foldM {A B} (f : B → A → M B) (b : B) (l : list A) : M B :=
  match l with
  | [] => mret b
  | x :: l' => b' ← f b x; foldM f b' l'
  end.

(** [for x in l: f(x)] *)
Fixpoint for_each {A} (f : A → M unit) (l : list A) : M unit :=
  match l with
  | [] => mret ()
  | x :: l' => f x;; for_each f l'
  end.

(** [d[key]] *)
Definition getitem (d : gmap string string) (key : string) : M string :=
  match d !! key with
  | Some v => mret v
  | None => raise (KeyError key)
  end.

(** ** Output templates *)

Inductive piece :=
  | Text (s : string)
  | Field (name : string).

Definition FLAKE8_OUTPUT : list piece :=
  [Field "filename"; Text ":"; Field "line"; Text ":"; Field "char";
   Text ": "; Field "code"; Text " "; Field "description"].
Definition HEADER_STRING : string := "Found violations".
Definition HEADER_OUTPUT : list piece :=
  [Field "header"; Text ": "; Field "filename"].
Definition SIMPLE_OUTPUT : list piece :=
  [Text (String "009" ""); Field "code"; Text " @ "; Field "line"; Text ":";
   Field "char"; Text " - "; Field "description"].

(** [template.format], its keyword arguments unpacked from [kwargs]. *)
Fixpoint format (template : list piece) (kwargs : gmap string string) : M string :=
  match template with
  | [] => mret ""
  | Text s :: template' => rest ← format template' kwargs; mret (s +:+ rest)
  | Field name :: template' =>
      v ← getitem kwargs name;
      rest ← format template' kwargs;
      mret (v +:+ rest)
  end.

(** ** Colour themes *)

Definition identity (x : string) : string := x.

Definition COLORS `{Terminal} : gmap string (gmap string (string → string)) :=
  list_to_map [
    ("off", list_to_map [
      ("header", identity); ("filename", identity); ("code", identity);
      ("line", identity); ("char", identity); ("description", identity)]);
    ("nocolor", list_to_map [
      ("header", bold_underline); ("filename", standout); ("code", bold);
      ("line", identity); ("char", identity); ("description", identity)]);
    ("dark", list_to_map [
      ("header", bold); ("filename", identity); ("code", bold_red);
      ("line", magenta); ("char", magenta); ("description", yellow)]);
    ("light", list_to_map [
      ("header", bold); ("filename", identity); ("code", bold_red);
      ("line", magenta); ("char", magenta); ("description", blue)])
  ].

(** ** Flake8Diff *)

Section Flake8Diff.
Context `{PyText} `{Terminal} `{Env}.
Variable options : Options.

(** [SUPPORTED_VCS.get(name)] *)
Fixpoint registry_get (name : string) (registry : list (string * VCS)) : option VCS :=
  match registry with
  | [] => None
  | (n, v) :: registry' =>
      if decide (n = name) then Some v else registry_get name registry'
  end.

(** The loop of [get_vcs] over [SUPPORTED_VCS.values()]. *)
Fixpoint probe (registry : list (string * VCS)) : M VCS :=
  match registry with
  | [] => raise NotLocatableVCSError
  | (name, v) :: registry' =>
      emit (Probe name);;
      if is_used v then mret v else probe registry'
  end.

Definition get_vcs : M VCS :=
  if truthy (vcs options) then
    let name := default "" (vcs options) in
    match registry_get name SUPPORTED_VCS with
    | None => raise (UnsupportedVCSError name)
    | Some v => mret v
    end
  else probe SUPPORTED_VCS.

Definition flake8_command (filename : string) : list string :=
  filter (λ s, s ≠ "")
    ([FLAKE8] ++ split (default "" (flake8_options options)) ++ [filename]).

Definition flake8 (filename : string) : M string :=
  let command := flake8_command filename in
  emit (Exec command);; mret (_execute command).

Definition color_getter (component : string) : string → string :=
  let theme := default ∅ (color_theme options ≫= (COLORS !!.)) in
  default identity (theme !! component).

Definition get_color_kwargs (details : gmap string string) : gmap string string :=
  let get i := default "" (details !! i) in
  list_to_map [
    ("line", color_getter "line" (get "line_number"));
    ("char", color_getter "char" (get "char_number"));
    ("code", color_getter "code" (get "error_code"));
    ("description", color_getter "description" (get "description"));
    ("filename", color_getter "filename" (get "filename"));
    ("header", color_getter "header" (get "header"))
  ].

(** [print] of [template.format] on the keyword arguments
    [self.get_color_kwargs(details)]. *)
Definition print_formatted (template : list piece) (details : gmap string string) : M unit :=
  text ← format template (get_color_kwargs details);
  emit (Print text).

(** The logger is at level INFO or below when [verbose] or [debug] is set. *)
Definition logger_info (filename : string) (lines : gset string) : M unit :=
  if verbose options || debug options then emit (LogInfo filename lines)
  else mret ().

(** One turn of the loop over the linter's output lines. *)
Definition process_violation (violated_lines : gset string)
    (violations : list (gmap string string)) (violation : string)
    : M (list (gmap string string)) :=
  match re_match FLAKE8_LINE violation with
  | Some matches =>
      let violation_details := groupdict matches in
      line_number ← getitem violation_details "line_number";
      if decide (line_number ∈ violated_lines) then
        let violations := violations ++ [violation_details] in
        (if standard_flake8_output options
         then print_formatted FLAKE8_OUTPUT violation_details
         else mret ());;
        mret violations
      else mret violations
  | None => mret violations
  end.

(** One turn of the loop over the changed files. *)
Definition process_file (provider : VCS) (overall_violations : nat)
    (filename : string) : M nat :=
  let violated_lines := changed_lines provider filename in
  logger_info filename violated_lines;;
  output ← flake8 filename;
  violations ← foldM (process_violation violated_lines) [] (splitlines output);
  let overall_violations := overall_violations + length violations in
  (if bool_decide (violations ≠ []) && negb (standard_flake8_output options)
   then
     print_formatted HEADER_OUTPUT
       (list_to_map [("filename", filename); ("header", HEADER_STRING)]);;
     for_each (print_formatted SIMPLE_OUTPUT) violations
   else mret ());;
  mret overall_violations.

Definition process : M bool :=
  provider ← get_vcs;
  overall_violations ← foldM (process_file provider) 0 (changed_files provider);
  mret (bool_decide (overall_violations = 0)).
End Flake8Diff.

(** ** The fixed format, in the specification's words

    [<filename>:<line>:<char>: <code> <description>]: the filename a run of
    characters that are not white space, line and char digit sequences, the
    code a possibly empty token of word characters, the description the
    remainder of the line (a line holds no line feed). *)

Definition line_text (filename line_number char_number error_code description : string)
    : string :=
  filename +:+ ":" +:+ line_number +:+ ":" +:+ char_number +:+ ": "
  +:+ error_code +:+ " " +:+ description.

Definition no_line_feed (s : string) : Prop :=
  string_forallb (λ c, negb (bool_decide (c = "010"%char))) s = true.

Section Format.
Context `{PyText}.

Definition prefix_ok (filename line_number char_number error_code : string) : Prop :=
  filename ≠ "" ∧ string_forallb (λ c, negb (re_space c)) filename = true ∧
  line_number ≠ "" ∧ string_forallb re_digit line_number = true ∧
  char_number ≠ "" ∧ string_forallb re_digit char_number = true ∧
  string_forallb (λ c, re_word c || re_digit c) error_code = true.

Definition matches_format (line : string) : Prop :=
  ∃ filename line_number char_number error_code description,
    prefix_ok filename line_number char_number error_code ∧
    line = line_text filename line_number char_number error_code description.
End Format.

(** The record the parser is to return for the five fields. *)
Definition record (filename line_number char_number error_code description : string)
    : gmap string string :=
  list_to_map [("filename", filename); ("line_number", line_number);
               ("char_number", char_number); ("error_code", error_code);
               ("description", description)].

(** A pattern read declaratively: some way of cutting the text fits it. *)
Fixpoint matches (re : list atom) (s : string) : Prop :=
  match re with
  | [] => True
  | Lit l :: re' => ∃ s', s = l +:+ s' ∧ matches re' s'
  | Group _ cls min :: re' =>
      ∃ a b, s = a +:+ b ∧ string_forallb cls a = true ∧
        min ≤ String.length a ∧ matches re' b
  end.

(** ** The report, in the specification's words *)

Section Report.
Context `{PyText} `{Terminal} `{Env}.
Variable options : Options.

(** A field of a record; an absent one reads as the empty string. *)
Definition field (details : gmap string string) (key : string) : string :=
  default "" (details !! key).

(** [{filename}:{line}:{char}: {code} {description}] *)
Definition flat_text (v : gmap string string) : string :=
  color_getter options "filename" (field v "filename") +:+ ":"
  +:+ color_getter options "line" (field v "line_number") +:+ ":"
  +:+ color_getter options "char" (field v "char_number") +:+ ": "
  +:+ color_getter options "code" (field v "error_code") +:+ " "
  +:+ color_getter options "description" (field v "description").

(** [Found violations: {filename}] *)
Definition header_text (filename : string) : string :=
  color_getter options "header" "Found violations" +:+ ": "
  +:+ color_getter options "filename" filename.

(** [\t{code} @ {line}:{char} - {description}] *)
Definition grouped_text (v : gmap string string) : string :=
  String "009" "" +:+ color_getter options "code" (field v "error_code")
  +:+ " @ " +:+ color_getter options "line" (field v "line_number") +:+ ":"
  +:+ color_getter options "char" (field v "char_number") +:+ " - "
  +:+ color_getter options "description" (field v "description").

(** A violation is on a changed line. *)
Definition on_changed_line (changed : gset string) (v : gmap string string) : bool :=
  match v !! "line_number" with
  | Some n => bool_decide (n ∈ changed)
  | None => false
  end.

(** The violations of a linter output that are kept for a file with the
    changed lines [changed], in the order of the output. *)
Definition kept_violations (changed : gset string) (lines : list string)
    : list (gmap string string) :=
  filter (λ v, on_changed_line changed v) (omap parse lines).

(** What is printed for a file whose kept violations are [kept]. *)
Definition report (filename : string) (kept : list (gmap string string))
    : list string :=
  if standard_flake8_output options then flat_text <$> kept
  else match kept with
       | [] => []
       | _ :: _ => header_text filename :: (grouped_text <$> kept)
       end.

(** The kept violations of one changed file of a provider. *)
Definition kept_in (provider : VCS) (filename : string) : list (gmap string string) :=
  kept_violations (changed_lines provider filename)
    (splitlines (_execute (flake8_command options filename))).

(** The events of one changed file. *)
Definition file_events (provider : VCS) (filename : string) : list event :=
  (if verbose options || debug options
   then [LogInfo filename (changed_lines provider filename)] else [])
  ++ Exec (flake8_command options filename)
  :: (Print <$> report filename (kept_in provider filename)).

(** The count of kept violations over all changed files. *)
Definition total_kept (provider : VCS) : nat :=
  sum_list (length <$> (kept_in provider <$> changed_files provider)).
End Report.

(** The providers [get_vcs] asks when none is named, and the one it finds. *)
Fixpoint probed_names (registry : list (string * VCS)) : list string :=
  match registry with
  | [] => []
  | (name, v) :: registry' =>
      name :: if is_used v then [] else probed_names registry'
  end.

Fixpoint first_used (registry : list (string * VCS)) : option VCS :=
  match registry with
  | [] => None
  | (_, v) :: registry' => if is_used v then Some v else first_used registry'
  end.

(** What a trace printed, and the commands it ran. *)
Definition printed (t : list event) : list string :=
  omap (λ e, match e with Print text => Some text | _ => None end) t.
Definition executed (t : list event) : list (list string) :=
  omap (λ e, match e with Exec command => Some command | _ => None end) t.

(** ** A run to try things on

    The scenario of the specification: [a.py] has the changed lines 10 and
    12 and the linter reports lines 10, 11 and 12.  The registry holds an
    unused provider before the used one; the terminal writes ANSI escapes. *)

Module Scenario.
Definition esc (code s : string) : string :=
  String "027" ("[" +:+ code +:+ "m") +:+ s +:+ String "027" "[m".

Definition ansi : Terminal := {|
  bold_underline := esc "1;4";
  standout := esc "7";
  bold := esc "1";
  bold_red := esc "1;31";
  magenta := esc "35";
  yellow := esc "33";
  blue := esc "34";
|}.

Definition lf : string := String "010" "".

Definition hg : VCS := {|
  is_used := false;
  changed_files := [];
  changed_lines := λ _, ∅;
|}.

Definition git : VCS := {|
  is_used := true;
  changed_files := ["a.py"];
  changed_lines := λ f, if decide (f = "a.py") then {["10"; "12"]} else ∅;
|}.

(** A provider with nothing changed. *)
Definition idle : VCS := {|
  is_used := true;
  changed_files := [];
  changed_lines := λ _, ∅;
|}.

Definition linter_output : string :=
  "a.py:10:1: E501 too long" +:+ lf +:+
  "a.py:11:1: E302 blank lines" +:+ lf +:+
  "a.py:12:1: W605 bad escape" +:+ lf.

Definition env : Env := {|
  FLAKE8 := "/usr/bin/flake8";
  _execute := λ command,
    if decide (last command = Some "a.py") then linter_output else "";
  SUPPORTED_VCS := [("hg", hg); ("git", git)];
|}.

(** The linter names another file than the one it was run on. *)
Definition foreign_env : Env := {|
  FLAKE8 := "/usr/bin/flake8";
  _execute := λ _, "b.py:10:1: E501 too long" +:+ lf;
  SUPPORTED_VCS := [("git", git)];
|}.

Definition idle_env : Env := {|
  FLAKE8 := "/usr/bin/flake8";
  _execute := λ _, linter_output;
  SUPPORTED_VCS := [("idle", idle)];
|}.

Definition unused_env : Env := {|
  FLAKE8 := "/usr/bin/flake8";
  _execute := λ _, linter_output;
  SUPPORTED_VCS := [("hg", hg)];
|}.

Definition defaults : Options := {|
  vcs := None;
  flake8_options := None;
  standard_flake8_output := false;
  color_theme := Some "dark";
  verbose := false;
  debug := false;
|}.

Definition with_vcs (name : string) : Options := {|
  vcs := Some name;
  flake8_options := None;
  standard_flake8_output := false;
  color_theme := Some "dark";
  verbose := false;
  debug := false;
|}.

Definition with_theme (theme : option string) (standard : bool) : Options := {|
  vcs := None;
  flake8_options := None;
  standard_flake8_output := standard;
  color_theme := theme;
  verbose := false;
  debug := false;
|}.
End Scenario.

(** ** More of the module

    What the further properties below speak about: the logger's level as
    [__init__] leaves it, the records a trace logged, an output line the
    loop keeps, and text written one line at a time. *)




Definition logged (t : list event) : list (string * gset string) :=
  omap (λ e, match e with
             | LogInfo filename lines => Some (filename, lines)
             | _ => None
             end) t.

(** The test of the loop on one line of the linter's output. *)
Definition line_kept `{PyText} (changed : gset string) (line : string) : bool :=
  match parse line with
  | Some v => on_changed_line changed v
  | None => false
  end.

(** Lines written out, each ended by a line feed. *)
Definition unlines (lines : list string) : string :=
  foldr (λ line text, line +:+ String "010" text) "" lines.

(** * Properties *)
(** ** The parser on sample lines *)

Example parse_ex1 :
  re_match FLAKE8_LINE "a.py:10:1: E501 line too long: 80 > 79"
  = Some [("filename", "a.py"); ("line_number", "10"); ("char_number", "1");
          ("error_code", "E501"); ("description", "line too long: 80 > 79")].
Proof. vm_compute. reflexivity. Qed.

Example parse_ex2 : re_match FLAKE8_LINE "1 E501 line too long" = None.
Proof. vm_compute. reflexivity. Qed.

Example parse_ex3 :
  re_match FLAKE8_LINE "C:\x:1:2:3:4:  "
  = Some [("filename", "C:\x:1:2"); ("line_number", "3"); ("char_number", "4");
          ("error_code", ""); ("description", "")].
Proof. vm_compute. reflexivity. Qed.

(** ** Strings *)

Lemma string_app_nil_l (s : string) : "" +:+ s = s.
Proof. reflexivity. Qed.

Lemma string_app_cons (c : ascii) (s1 s2 : string) :
  String c s1 +:+ s2 = String c (s1 +:+ s2).
Proof. reflexivity. Qed.

Lemma string_app_nil_r (s : string) : s +:+ "" = s.
Proof. induction s as [|c s IH]; [done|]. by rewrite string_app_cons, IH. Qed.

Lemma string_app_assoc (s1 s2 s3 : string) : (s1 +:+ s2) +:+ s3 = s1 +:+ (s2 +:+ s3).
Proof. induction s1 as [|c s1 IH]; [done|]. by rewrite !string_app_cons, IH. Qed.

Lemma string_length_app (s1 s2 : string) :
  String.length (s1 +:+ s2) = String.length s1 + String.length s2.
Proof. induction s1 as [|c s1 IH]; [done|]. rewrite string_app_cons. simpl. by rewrite IH. Qed.

Lemma string_app_snoc (s1 s2 : string) (c : ascii) :
  (s1 +:+ String c "") +:+ s2 = s1 +:+ String c s2.
Proof. by rewrite string_app_assoc. Qed.

Lemma string_forallb_app p (s1 s2 : string) :
  string_forallb p (s1 +:+ s2) = string_forallb p s1 && string_forallb p s2.
Proof.
  induction s1 as [|c s1 IH]; [done|].
  rewrite string_app_cons. simpl. rewrite IH. by rewrite andb_assoc.
Qed.

Lemma strip_prefix_app (l s : string) : strip_prefix l (l +:+ s) = Some s.
Proof.
  induction l as [|c l IH]; [by destruct s|].
  rewrite string_app_cons. simpl. by rewrite decide_True.
Qed.

Lemma strip_prefix_Some (l s s' : string) :
  strip_prefix l s = Some s' → s = l +:+ s'.
Proof.
  revert s. induction l as [|c l IH]; intros s Hs.
  - destruct s; simpl in Hs; by simplify_eq.
  - destruct s as [|b s]; [done|]. simpl in Hs.
    case_decide; [|done]. subst b. rewrite string_app_cons. f_equal. by apply IH.
Qed.

(** Text is cut in one way only at the first character outside a class... *)
Lemma split_first_unique q (a b a' b' : string) (c c' : ascii) :
  string_forallb q a = true → q c = false →
  string_forallb q a' = true → q c' = false →
  a +:+ String c b = a' +:+ String c' b' →
  a = a' ∧ c = c' ∧ b = b'.
Proof.
  revert a'. induction a as [|x a IH]; intros [|x' a'] Ha Hc Ha' Hc' E;
    rewrite ?string_app_cons, ?string_app_nil_l in E; simplify_eq/=.
  - done.
  - apply andb_prop in Ha' as [Hx _]. congruence.
  - apply andb_prop in Ha as [Hx _]. congruence.
  - apply andb_prop in Ha as [_ Ha]. apply andb_prop in Ha' as [_ Ha'].
    destruct (IH a' Ha Hc Ha' Hc' H) as (-> & -> & ->). done.
Qed.

(** ... and at the last occurrence of a character. *)
Lemma split_last_unique q (a b a' b' : string) (c : ascii) :
  string_forallb q b = true → string_forallb q b' = true → q c = false →
  a +:+ String c b = a' +:+ String c b' →
  a = a' ∧ b = b'.
Proof.
  intros Hb Hb' Hc. revert a'.
  induction a as [|x a IH]; intros [|x' a'] E;
    rewrite ?string_app_cons, ?string_app_nil_l in E; simplify_eq/=.
  - done.
  - rewrite string_forallb_app in Hb. simpl in Hb. rewrite Hc in Hb.
    by rewrite andb_false_r in Hb.
  - rewrite string_forallb_app in Hb'. simpl in Hb'. rewrite Hc in Hb'.
    by rewrite andb_false_r in Hb'.
  - destruct (IH a' H) as [-> ->]. done.
Qed.

(** ** The engine *)

Section GreedyFacts.
Context {R : Type} (cls : ascii → bool) (min : nat).
Variable k : string → string → option R.

(** A repetition fails only when the rest fails after every run it may
    take. *)
Lemma greedy_None_inv (taken s : string) :
  greedy cls min k taken s = None →
  ∀ a b, s = a +:+ b → string_forallb cls a = true →
    min ≤ String.length (taken +:+ a) → k (taken +:+ a) b = None.
Proof.
  revert taken. induction s as [|c s IH]; intros taken Hg a b E Ha Hmin.
  - destruct a; [|done]. rewrite string_app_nil_l in E. subst b.
    rewrite string_app_nil_r in *. simpl in Hg. by rewrite decide_True in Hg.
  - simpl in Hg. destruct a as [|x a].
    + rewrite string_app_nil_l in E. subst b. rewrite string_app_nil_r in *.
      destruct (cls c); [destruct (greedy _ _ _ _ s); [done|]|];
        by rewrite decide_True in Hg.
    + rewrite string_app_cons in E. injection E as Ex Es. subst x s. simpl in Ha.
      apply andb_prop in Ha as [Hc Ha]. rewrite Hc in Hg.
      destruct (greedy cls min k (taken +:+ String c "") (a +:+ b)) eqn:Hg';
        [done|].
      rewrite <- string_app_snoc. apply (IH _ Hg'); [done..|by rewrite string_app_snoc].
Qed.

(** A repetition that succeeds took a run after which the rest succeeds,
    and the rest fails after every longer run. *)
Lemma greedy_Some_inv (taken s : string) (r : R) :
  greedy cls min k taken s = Some r →
  ∃ a b, s = a +:+ b ∧ string_forallb cls a = true ∧
    min ≤ String.length (taken +:+ a) ∧ k (taken +:+ a) b = Some r ∧
    ∀ a' b', s = a' +:+ b' → string_forallb cls a' = true →
      String.length a < String.length a' → k (taken +:+ a') b' = None.
Proof.
  revert taken. induction s as [|c s IH]; intros taken Hg.
  - simpl in Hg. case_decide; [|done]. exists "", "".
    rewrite !string_app_nil_r. split_and!; [done..|].
    intros [|??] ? ? ?; [simpl in *; lia|done].
  - simpl in Hg.
    assert (Hstop : (if decide (min ≤ String.length taken)
                     then k taken (String c s) else None) = Some r →
              ∃ b, String c s = "" +:+ b ∧ string_forallb cls "" = true ∧
                min ≤ String.length (taken +:+ "") ∧
                k (taken +:+ "") b = Some r).
    { intros Hk. case_decide; [|done]. exists (String c s).
      by rewrite string_app_nil_r. }
    destruct (cls c) eqn:Hc.
    + destruct (greedy cls min k (taken +:+ String c "") s) eqn:Hg'.
      * simplify_eq. destruct (IH _ Hg') as (a & b & -> & Ha & Hmin & Hk & Hmax).
        exists (String c a), b. rewrite string_app_snoc in Hmin, Hk.
        split_and!; [done|by simpl; rewrite Hc|done..|].
        intros [|x a'] b' E Ha' Hlen; [simpl in Hlen; lia|].
        rewrite string_app_cons in E. injection E as Ex Es. subst x.
        simpl in Ha', Hlen.
        apply andb_prop in Ha' as [_ Ha'].
        rewrite <- string_app_snoc. apply Hmax; [done..|lia].
      * destruct (Hstop Hg) as (b & E & Ha & Hmin & Hk).
        exists "", b. split_and!; [done..|].
        intros [|x a'] b' E' Ha' Hlen; [simpl in Hlen; lia|].
        rewrite string_app_cons in E'. injection E' as Ex Es. subst x.
        simpl in Ha'.
        apply andb_prop in Ha' as [_ Ha']. rewrite <- string_app_snoc.
        apply (greedy_None_inv _ _ Hg'); [done..|].
        rewrite string_app_snoc, string_length_app in *. simpl in *. lia.
    + destruct (Hstop Hg) as (b & E & Ha & Hmin & Hk).
      exists "", b. split_and!; [done..|].
      intros [|x a'] b' E' Ha' Hlen; [simpl in Hlen; lia|].
      rewrite string_app_cons in E'. injection E' as Ex Es. subst x.
      simpl in Ha'. by rewrite Hc in Ha'.
Qed.
End GreedyFacts.

Lemma re_match_Lit_inv l re s m :
  re_match (Lit l :: re) s = Some m →
  ∃ s', s = l +:+ s' ∧ re_match re s' = Some m.
Proof.
  simpl. destruct (strip_prefix l s) as [s'|] eqn:E; [|done].
  intros Hm. exists s'. split; [by apply strip_prefix_Some|done].
Qed.

Lemma re_match_Group_inv name cls min re s m :
  re_match (Group name cls min :: re) s = Some m →
  ∃ a b m', s = a +:+ b ∧ string_forallb cls a = true ∧
    min ≤ String.length a ∧ m = (name, a) :: m' ∧
    re_match re b = Some m' ∧
    ∀ a' b', s = a' +:+ b' → string_forallb cls a' = true →
      String.length a < String.length a' → re_match re b' = None.
Proof.
  simpl. intros Hg.
  apply greedy_Some_inv in Hg as (a & b & -> & Ha & Hmin & Hk & Hmax).
  rewrite string_app_nil_l in *.
  destruct (re_match re b) as [m'|] eqn:Hb; [|done]. simplify_eq/=.
  exists a, b, m'. split_and!; [done..|].
  intros a' b' E Ha' Hlen. specialize (Hmax a' b' E Ha' Hlen).
  rewrite string_app_nil_l in Hmax. by destruct (re_match re b').
Qed.

(** The search is complete: it finds a match whenever the text can be cut
    to fit the pattern. *)
Lemma re_match_complete re s : matches re s → is_Some (re_match re s).
Proof.
  revert s. induction re as [|[l|name cls min] re IH]; intros s Hs; simpl in *.
  - by eexists.
  - destruct Hs as (s' & -> & Hs'). rewrite strip_prefix_app. by apply IH.
  - destruct Hs as (a & b & -> & Ha & Hmin & Hb).
    destruct (greedy _ _ _ _ _) eqn:Hg; [by eexists|].
    apply (greedy_None_inv _ _ _ _ _ Hg a b) in Ha; [|done..].
    rewrite string_app_nil_l in Ha. destruct (IH b Hb) as [m Hm].
    by rewrite Hm in Ha.
Qed.

Lemma re_match_sound re s m : re_match re s = Some m → matches re s.
Proof.
  revert s m. induction re as [|[l|name cls min] re IH]; intros s m Hm.
  - done.
  - apply re_match_Lit_inv in Hm as (s' & -> & Hm). simpl. eauto.
  - apply re_match_Group_inv in Hm as (a & b & m' & -> & ? & ? & _ & Hm & _).
    simpl. eauto 10.
Qed.

(** ** The line parser *)

Section ParserFacts.
Context `{PyText}.

Lemma digits_not_space s :
  string_forallb re_digit s = true → string_forallb not_space s = true.
Proof.
  induction s as [|c s IH]; [done|]. simpl. intros [Hc Hs]%andb_prop.
  unfold not_space at 1. rewrite (digit_not_space c Hc). simpl. by apply IH.
Qed.

Lemma line_text_matches fn ln ch code desc :
  prefix_ok fn ln ch code →
  matches FLAKE8_LINE (line_text fn ln ch code desc).
Proof.
  intros (Hfn & Hfn' & Hln & Hln' & Hch & Hch' & Hcode).
  assert (Hlen : ∀ s, s ≠ "" → 1 ≤ String.length s).
  { intros [|??] ?; [done|simpl; lia]. }
  unfold line_text. simpl.
  exists fn, (":" +:+ ln +:+ ":" +:+ ch +:+ ": " +:+ code +:+ " " +:+ desc).
  split_and!; [done|done|by apply Hlen|].
  eexists. split; [done|]. eexists ln, _. split_and!; [done|done|by apply Hlen|].
  eexists. split; [done|]. eexists ch, _. split_and!; [done|done|by apply Hlen|].
  eexists. split; [done|]. eexists code, _. split_and!; [done|done|lia|].
  eexists. split; [done|]. exists "", desc. split_and!; [done|done|simpl; lia|done].
Qed.

(** The fields of a line in the fixed format are determined by the line. *)
Lemma line_text_inj fn ln ch code desc fn' ln' ch' code' desc' :
  prefix_ok fn ln ch code → prefix_ok fn' ln' ch' code' →
  line_text fn ln ch code desc = line_text fn' ln' ch' code' desc' →
  fn = fn' ∧ ln = ln' ∧ ch = ch' ∧ code = code' ∧ desc = desc'.
Proof.
  intros (_ & Hfn & _ & Hln & _ & Hch & Hcode)
         (_ & Hfn' & _ & Hln' & _ & Hch' & Hcode') E.
  assert (Hre : ∀ f l c e d, line_text f l c e d
    = (((f +:+ String ":" l) +:+ String ":" c) +:+ String ":" "")
        +:+ String " " (e +:+ String " " d)).
  { intros. unfold line_text. by rewrite !string_app_assoc. }
  assert (Hpre : ∀ f l c, string_forallb not_space f = true →
    string_forallb re_digit l = true → string_forallb re_digit c = true →
    string_forallb not_space
      (((f +:+ String ":" l) +:+ String ":" c) +:+ String ":" "") = true).
  { intros f l c Hf Hl Hc. rewrite !string_forallb_app. simpl.
    unfold not_space at 2 4 6. rewrite colon_not_space. simpl.
    rewrite Hf, !digits_not_space by done. done. }
  assert (Hsp : not_space " " = false).
  { unfold not_space. by rewrite space_is_space. }
  assert (Hwd : word_or_digit " " = false).
  { unfold word_or_digit. by rewrite space_not_word, space_not_digit. }
  rewrite !Hre in E.
  destruct (split_first_unique not_space _ _ _ _ _ _
              (Hpre _ _ _ Hfn Hln Hch) Hsp (Hpre _ _ _ Hfn' Hln' Hch') Hsp E)
    as (E1 & _ & E2).
  destruct (split_last_unique re_digit _ "" _ "" _
              eq_refl eq_refl colon_not_digit E1) as [E3 _].
  destruct (split_last_unique re_digit _ _ _ _ _
              Hch Hch' colon_not_digit E3) as [E4 ->].
  destruct (split_last_unique re_digit _ _ _ _ _
              Hln Hln' colon_not_digit E4) as [-> ->].
  destruct (split_first_unique word_or_digit _ _ _ _ _ _
              Hcode Hwd Hcode' Hwd E2) as (-> & _ & ->).
  done.
Qed.
End ParserFacts.

Section ParserTheorems.
Context `{PyText}.

(** What a successful match of [FLAKE8_LINE] says about the text: it
    starts with a line in the fixed format, the groups are its fields, and
    the description stops at the end of the text or at a line feed. *)
Lemma FLAKE8_LINE_inv s m :
  re_match FLAKE8_LINE s = Some m →
  ∃ fn ln ch code desc rest,
    prefix_ok fn ln ch code ∧ no_line_feed desc ∧
    s = line_text fn ln ch code (desc +:+ rest) ∧
    m = [("filename", fn); ("line_number", ln); ("char_number", ch);
         ("error_code", code); ("description", desc)] ∧
    (rest = "" ∨ ∃ r, rest = String "010" r).
Proof.
  intros Hm. unfold FLAKE8_LINE in Hm.
  assert (Hne : ∀ s, 1 ≤ String.length s → s ≠ "").
  { intros [|??]; simpl; [lia|done]. }
  apply re_match_Group_inv in Hm as (fn & s1 & m1 & -> & Hfn & Lfn & -> & Hm & _).
  apply re_match_Lit_inv in Hm as (s2 & -> & Hm).
  apply re_match_Group_inv in Hm as (ln & s3 & m3 & -> & Hln & Lln & -> & Hm & _).
  apply re_match_Lit_inv in Hm as (s4 & -> & Hm).
  apply re_match_Group_inv in Hm as (ch & s5 & m5 & -> & Hch & Lch & -> & Hm & _).
  apply re_match_Lit_inv in Hm as (s6 & -> & Hm).
  apply re_match_Group_inv in Hm as (code & s7 & m7 & -> & Hcode & _ & -> & Hm & _).
  apply re_match_Lit_inv in Hm as (s8 & -> & Hm).
  apply re_match_Group_inv in Hm as (desc & rest & m9 & -> & Hdesc & _ & -> & Hm & Hmax).
  simpl in Hm. simplify_eq.
  exists fn, ln, ch, code, desc, rest. split_and!; try done.
  - unfold prefix_ok. split_and!; auto.
  - destruct rest as [|c r]; [by left|right].
    destruct (decide (c = "010"%char)) as [->|Hc]; [by eexists|].
    specialize (Hmax (desc +:+ String c "") r). simpl in Hmax.
    rewrite string_app_snoc, string_forallb_app, string_length_app in Hmax. simpl in Hmax.
    rewrite Hdesc in Hmax. unfold dot in Hmax.
    rewrite bool_decide_false in Hmax by done.
    discriminate Hmax; [done..|lia].
Qed.

Lemma no_line_feed_app s1 s2 :
  no_line_feed (s1 +:+ s2) → no_line_feed s1 ∧ no_line_feed s2.
Proof.
  unfold no_line_feed. rewrite string_forallb_app. by intros ?%andb_prop.
Qed.

Lemma parse_Some_inv line d :
  parse line = Some d →
  ∃ fn ln ch code desc rest,
    prefix_ok fn ln ch code ∧ no_line_feed desc ∧
    line = line_text fn ln ch code (desc +:+ rest) ∧
    d = record fn ln ch code desc ∧
    (rest = "" ∨ ∃ r, rest = String "010" r).
Proof.
  unfold parse. destruct (re_match FLAKE8_LINE line) as [m|] eqn:Hm; [|done].
  intros [= <-].
  apply FLAKE8_LINE_inv in Hm as (fn & ln & ch & code & desc & rest & ? & ? & ? & -> & ?).
  by exists fn, ln, ch, code, desc, rest.
Qed.

Lemma parse_format_record fn ln ch code desc :
  prefix_ok fn ln ch code → no_line_feed desc →
  parse (line_text fn ln ch code desc) = Some (record fn ln ch code desc).
Proof.
  intros Hok Hdesc.
  destruct (re_match_complete _ _ (line_text_matches _ _ _ _ desc Hok))
    as [m Hm].
  unfold parse. rewrite Hm. simpl. f_equal.
  apply FLAKE8_LINE_inv in Hm
    as (fn' & ln' & ch' & code' & desc' & rest & Hok' & _ & E & -> & Hrest).
  apply line_text_inj in E as (-> & -> & -> & -> & ->); [|done..].
  apply no_line_feed_app in Hdesc as [_ Hrest'].
  destruct Hrest as [->|[r ->]]; [by rewrite string_app_nil_r|done].
Qed.

(** C3: a line in the fixed format parses to the record of its five
    fields, the text between the separators [:], [:], [: ] and the first
    space after the code; the description is everything after that space,
    colons and spaces included. *)
Theorem parse_fixed_format (filename line_number char_number error_code description : string) :
  prefix_ok filename line_number char_number error_code →
  no_line_feed description →
  parse (line_text filename line_number char_number error_code description)
  = Some (record filename line_number char_number error_code description)
  ∧ ∀ key value,
      record filename line_number char_number error_code description !! key
        = Some value
      ↔ (key = "filename" ∧ value = filename)
        ∨ (key = "line_number" ∧ value = line_number)
        ∨ (key = "char_number" ∧ value = char_number)
        ∨ (key = "error_code" ∧ value = error_code)
        ∨ (key = "description" ∧ value = description).
Proof.
  intros Hok Hdesc. split; [by apply parse_format_record|].
  intros key value. unfold record. simpl.
  rewrite !lookup_insert_Some, lookup_empty. split.
  - intros [[<- <-]|[_ [[<- <-]|[_ [[<- <-]|[_ [[<- <-]|[_ [[<- <-]|[_ ?]]]]]]]]]];
      [auto 10..|done].
  - intros [[-> ->]|[[-> ->]|[[-> ->]|[[-> ->]|[-> ->]]]]];
      repeat first [left; split; reflexivity | right; split; [discriminate|]].
Qed.

(** The parser accepts exactly the texts that start in the fixed format. *)
Lemma parse_format_Some line : matches_format line → is_Some (parse line).
Proof.
  intros (fn & ln & ch & code & desc & Hok & ->).
  destruct (re_match_complete _ _ (line_text_matches _ _ _ _ desc Hok))
    as [m Hm].
  unfold parse. rewrite Hm. by eexists.
Qed.

Lemma parse_None_not_format line : parse line = None → ¬ matches_format line.
Proof. intros Hp [v Hv]%parse_format_Some. congruence. Qed.

Lemma parse_not_format line : ¬ matches_format line → parse line = None.
Proof.
  intros Hno. destruct (parse line) as [d|] eqn:Hd; [|done].
  destruct Hno.
  apply parse_Some_inv in Hd as (fn & ln & ch & code & desc & rest & ? & _ & -> & _).
  by exists fn, ln, ch, code, (desc +:+ rest).
Qed.
End ParserTheorems.

(** On a sample line. *)
Lemma parse_fixed_format_witness :
  parse "a.py:10:1: E501 line too long: 80 > 79"
  = Some (record "a.py" "10" "1" "E501" "line too long: 80 > 79").
Proof.
  apply (proj1 (parse_fixed_format "a.py" "10" "1" "E501"
                  "line too long: 80 > 79"
                  ltac:(unfold prefix_ok; split_and!; done) eq_refl)).
Defined.

(** ** The lines the parser is given *)

Section OutputLines.
Context `{PyText}.

Lemma splitlines_go_no_line_feed (n : nat) :
  ∀ s cur, String.length s ≤ n → no_line_feed cur →
    ∀ line, line ∈ splitlines_go cur s → no_line_feed line.
Proof.
  induction n as [|n IH]; intros [|c s] cur Hlen Hcur line Hin;
    simpl in Hlen; try lia.
  - simpl in Hin. case_decide; [by apply elem_of_nil in Hin|].
    by apply list_elem_of_singleton in Hin as ->.
  - simpl in Hin. case_decide; [by apply elem_of_nil in Hin|].
    by apply list_elem_of_singleton in Hin as ->.
  - simpl in Hin. destruct (str_linebreak c) eqn:Hc.
    + apply elem_of_cons in Hin as [->|Hin]; [done|].
      destruct s as [|c' s']; [by apply elem_of_nil in Hin|].
      simpl in Hlen. case_decide.
      * apply (IH s' ""); [lia|done|done].
      * apply (IH (String c' s') ""); [simpl; lia|done|done].
    + apply (IH s (cur +:+ String c "")); [lia| |done].
      unfold no_line_feed in *. rewrite string_forallb_app, Hcur. simpl.
      rewrite bool_decide_false; [done|].
      intros ->. by rewrite lf_is_linebreak in Hc.
Qed.

(** No line of [splitlines] holds a line feed. *)
Lemma splitlines_no_line_feed (text line : string) :
  line ∈ splitlines text → no_line_feed line.
Proof. by apply (splitlines_go_no_line_feed (String.length text)). Qed.

(** So each line of the linter's output that is in the fixed format
    parses to the record of its fields. *)
Lemma parse_output_line (text fn ln ch code desc : string) :
  line_text fn ln ch code desc ∈ splitlines text →
  prefix_ok fn ln ch code →
  parse (line_text fn ln ch code desc) = Some (record fn ln ch code desc).
Proof.
  intros Hin%splitlines_no_line_feed Hok.
  apply parse_format_record; [done|].
  unfold line_text in Hin.
  by repeat apply no_line_feed_app in Hin as [_ Hin].
Qed.
End OutputLines.

(** ** The effect monad *)

Lemma bind_Return {A B} (t : list event) (a : A) (f : A → M B) :
  (t, Return a) ≫= f = (t ++ (f a).1, (f a).2).
Proof. unfold mbind, M_bind. by destruct (f a). Qed.

Lemma bind_mret {A B} (a : A) (f : A → M B) : mret a ≫= f = f a.
Proof. unfold mret, M_ret. rewrite bind_Return. by destruct (f a). Qed.

Lemma bind_emit {B} (e : event) (f : unit → M B) :
  emit e ≫= f = (e :: (f ()).1, (f ()).2).
Proof. unfold emit. by rewrite bind_Return. Qed.

(** ** Formatting *)

Lemma format_FLAKE8_OUTPUT (kw : gmap string string) (l c e d f : string) :
  kw !! "line" = Some l → kw !! "char" = Some c → kw !! "code" = Some e →
  kw !! "description" = Some d → kw !! "filename" = Some f →
  format FLAKE8_OUTPUT kw
  = ([], Return (f +:+ ":" +:+ l +:+ ":" +:+ c +:+ ": " +:+ e +:+ " " +:+ d)).
Proof.
  intros Hl Hc He Hd Hf. cbn [format FLAKE8_OUTPUT]. unfold getitem.
  rewrite Hl, Hc, He, Hd, Hf. rewrite !bind_mret. by rewrite string_app_nil_r.
Qed.

Lemma format_SIMPLE_OUTPUT (kw : gmap string string) (l c e d : string) :
  kw !! "line" = Some l → kw !! "char" = Some c → kw !! "code" = Some e →
  kw !! "description" = Some d →
  format SIMPLE_OUTPUT kw
  = ([], Return (String "009" "" +:+ e +:+ " @ " +:+ l +:+ ":" +:+ c
                 +:+ " - " +:+ d)).
Proof.
  intros Hl Hc He Hd. cbn [format SIMPLE_OUTPUT]. unfold getitem.
  rewrite Hl, Hc, He, Hd. rewrite !bind_mret. by rewrite string_app_nil_r.
Qed.

Lemma format_HEADER_OUTPUT (kw : gmap string string) (h f : string) :
  kw !! "header" = Some h → kw !! "filename" = Some f →
  format HEADER_OUTPUT kw = ([], Return (h +:+ ": " +:+ f)).
Proof.
  intros Hh Hf. cbn [format HEADER_OUTPUT]. unfold getitem.
  rewrite Hh, Hf. rewrite !bind_mret. by rewrite string_app_nil_r.
Qed.

Section Formatting.
Context `{Terminal}.
Variable options : Options.

Lemma format_flat (v : gmap string string) :
  format FLAKE8_OUTPUT (get_color_kwargs options v)
  = ([], Return (flat_text options v)).
Proof. by apply format_FLAKE8_OUTPUT. Qed.

Lemma format_grouped (v : gmap string string) :
  format SIMPLE_OUTPUT (get_color_kwargs options v)
  = ([], Return (grouped_text options v)).
Proof. by apply format_SIMPLE_OUTPUT. Qed.

Lemma format_header (filename : string) :
  format HEADER_OUTPUT
    (get_color_kwargs options
       (list_to_map [("filename", filename); ("header", HEADER_STRING)]))
  = ([], Return (header_text options filename)).
Proof. by apply format_HEADER_OUTPUT. Qed.

Lemma print_flat (v : gmap string string) :
  print_formatted options FLAKE8_OUTPUT v
  = ([Print (flat_text options v)], Return ()).
Proof. unfold print_formatted. by rewrite format_flat, bind_Return. Qed.

Lemma print_grouped (v : gmap string string) :
  print_formatted options SIMPLE_OUTPUT v
  = ([Print (grouped_text options v)], Return ()).
Proof. unfold print_formatted. by rewrite format_grouped, bind_Return. Qed.

Lemma print_header (filename : string) :
  print_formatted options HEADER_OUTPUT
    (list_to_map [("filename", filename); ("header", HEADER_STRING)])
  = ([Print (header_text options filename)], Return ()).
Proof. unfold print_formatted. by rewrite format_header, bind_Return. Qed.
End Formatting.

(** ** The loop over the linter's output *)

Section Loop.
Context `{PyText} `{Terminal} `{Env}.
Variable options : Options.

Lemma kept_violations_nil changed : kept_violations changed [] = [].
Proof. done. Qed.

Lemma kept_violations_cons changed line lines :
  kept_violations changed (line :: lines)
  = kept_violations changed [line] ++ kept_violations changed lines.
Proof.
  unfold kept_violations. rewrite <- filter_app. f_equal.
  simpl. by destruct (parse line).
Qed.

Lemma kept_violations_app changed l1 l2 :
  kept_violations changed (l1 ++ l2)
  = kept_violations changed l1 ++ kept_violations changed l2.
Proof.
  induction l1 as [|x l1 IH]; [done|].
  rewrite <- app_comm_cons, kept_violations_cons, IH,
    (kept_violations_cons _ x l1). by rewrite (assoc_L (++)).
Qed.

Lemma kept_violations_None changed line :
  parse line = None → kept_violations changed [line] = [].
Proof. unfold kept_violations. simpl. by intros ->. Qed.

Lemma kept_violations_Some changed line v :
  parse line = Some v →
  kept_violations changed [line] = if on_changed_line changed v then [v] else [].
Proof.
  unfold kept_violations. simpl. intros ->. rewrite filter_cons.
  destruct (on_changed_line changed v); by simpl.
Qed.

(** Where the membership test of the loop is read from the record. *)
Lemma record_line_number fn ln ch code desc :
  record fn ln ch code desc !! "line_number" = Some ln.
Proof. done. Qed.

Lemma process_violation_spec changed violations line :
  process_violation options changed violations line
  = ((if standard_flake8_output options
      then Print <$> (flat_text options <$> kept_violations changed [line])
      else []),
     Return (violations ++ kept_violations changed [line])).
Proof.
  unfold process_violation.
  destruct (re_match FLAKE8_LINE line) as [m|] eqn:Hm.
  - assert (Hp : parse line = Some (groupdict m)) by (unfold parse; by rewrite Hm).
    rewrite (kept_violations_Some _ _ _ Hp). unfold on_changed_line.
    apply FLAKE8_LINE_inv in Hm as (fn & ln & ch & code & desc & rest & _ & _ & _ & -> & _).
    change (groupdict _) with (record fn ln ch code desc).
    unfold getitem. rewrite record_line_number, bind_mret.
    case_decide as Hin.
    + rewrite bool_decide_true by done.
      destruct (standard_flake8_output options).
      * by rewrite print_flat, bind_Return.
      * by rewrite bind_mret.
    + rewrite bool_decide_false by done.
      rewrite app_nil_r. by destruct (standard_flake8_output options).
  - assert (Hp : parse line = None) by (unfold parse; by rewrite Hm).
    rewrite (kept_violations_None _ _ Hp), app_nil_r.
    by destruct (standard_flake8_output options).
Qed.

Lemma loop_spec changed violations lines :
  foldM (process_violation options changed) violations lines
  = ((if standard_flake8_output options
      then Print <$> (flat_text options <$> kept_violations changed lines)
      else []),
     Return (violations ++ kept_violations changed lines)).
Proof.
  revert violations. induction lines as [|line lines IH]; intros violations.
  - simpl. rewrite kept_violations_nil, app_nil_r.
    by destruct (standard_flake8_output options).
  - cbn [foldM]. rewrite process_violation_spec, bind_Return, IH. simpl.
    rewrite (kept_violations_cons _ line lines), (assoc_L (++)).
    destruct (standard_flake8_output options); [|done].
    by rewrite !fmap_app.
Qed.

Lemma logger_info_spec filename lines :
  logger_info options filename lines
  = ((if verbose options || debug options
      then [LogInfo filename lines] else []), Return ()).
Proof. unfold logger_info. by destruct (_ || _). Qed.

Lemma flake8_spec filename :
  flake8 options filename
  = ([Exec (flake8_command options filename)],
     Return (_execute (flake8_command options filename))).
Proof. unfold flake8. by rewrite bind_emit. Qed.

Lemma for_each_grouped l :
  for_each (print_formatted options SIMPLE_OUTPUT) l
  = (Print <$> (grouped_text options <$> l), Return ()).
Proof.
  induction l as [|x l IH]; [done|]. cbn [for_each].
  by rewrite print_grouped, bind_Return, IH.
Qed.

(** One changed file: the log record if logging is on, one run of the
    linter, the report of the kept violations; the count grows by their
    number. *)
Lemma process_file_spec provider overall filename :
  process_file options provider overall filename
  = (file_events options provider filename,
     Return (overall + length (kept_in options provider filename))).
Proof.
  unfold process_file, file_events, report.
  rewrite logger_info_spec, bind_Return. cbv beta.
  rewrite flake8_spec, bind_Return. cbv beta.
  rewrite loop_spec, bind_Return. cbv beta.
  fold (kept_in options provider filename). rewrite app_nil_l.
  destruct (standard_flake8_output options).
  - rewrite andb_false_r, !bind_mret. simpl. by rewrite app_nil_r.
  - rewrite andb_true_r.
    destruct (kept_in options provider filename) as [|v kept] eqn:Hk.
    + rewrite bool_decide_false by naive_solver. by rewrite !bind_mret.
    + rewrite bool_decide_true by done.
      rewrite print_header, bind_Return. cbv beta.
      rewrite for_each_grouped. cbn [fst snd]. rewrite bind_Return.
      simpl. by rewrite app_nil_r.
Qed.

Lemma files_loop_spec provider overall files :
  foldM (process_file options provider) overall files
  = (concat (file_events options provider <$> files),
     Return (overall + sum_list (length <$> (kept_in options provider <$> files)))).
Proof.
  revert overall. induction files as [|f files IH]; intros overall.
  - simpl. by rewrite Nat.add_0_r.
  - cbn [foldM]. rewrite process_file_spec, bind_Return, IH. simpl.
    by rewrite Nat.add_assoc.
Qed.

Lemma process_spec t provider :
  get_vcs options = (t, Return provider) →
  process options
  = (t ++ concat (file_events options provider <$> changed_files provider),
     Return (bool_decide (total_kept options provider = 0))).
Proof.
  intros Hv. unfold process. rewrite Hv, bind_Return, files_loop_spec.
  rewrite bind_Return. simpl. by rewrite app_nil_r.
Qed.

Lemma process_raise t e :
  get_vcs options = (t, Raise e) → process options = (t, Raise e).
Proof. intros Hv. unfold process. by rewrite Hv. Qed.
End Loop.

(** ** Filtering *)

Section Filtering.
Context `{PyText} `{Terminal} `{Env}.
Variable options : Options.

Lemma on_changed_line_iff changed (v : gmap string string) :
  on_changed_line changed v = true
  ↔ ∃ n, v !! "line_number" = Some n ∧ n ∈ changed.
Proof.
  unfold on_changed_line. destruct (v !! "line_number") as [n|].
  - rewrite bool_decide_eq_true. split; [by exists n|].
    by intros (? & [= <-] & ?).
  - split; [done|]. by intros (? & ? & _).
Qed.

Lemma elem_of_kept_violations changed lines (v : gmap string string) :
  v ∈ kept_violations changed lines
  ↔ (∃ line, line ∈ lines ∧ parse line = Some v)
    ∧ ∃ n, v !! "line_number" = Some n ∧ n ∈ changed.
Proof.
  unfold kept_violations.
  rewrite list_elem_of_filter, list_elem_of_omap, Is_true_true,
    on_changed_line_iff.
  tauto.
Qed.

(** C1: for every changed file, a violation parsed from the linter's
    output is kept if and only if its line number, as a string, is an
    element of the changed-line set of the file the linter was run on;
    what is printed is the report of the kept violations, in either
    layout, and the count grows by their number. *)
Theorem reported_iff_changed_line (provider : VCS) (overall : nat) (filename : string) :
  let changed := changed_lines provider filename in
  let lines := splitlines (_execute (flake8_command options filename)) in
  let kept := kept_in options provider filename in
  let run := process_file options provider overall filename in
  (∀ v : gmap string string,
     v ∈ kept ↔ (∃ line, line ∈ lines ∧ parse line = Some v)
                ∧ ∃ n, v !! "line_number" = Some n ∧ n ∈ changed)
  ∧ printed (trace run) = report options filename kept
  ∧ outcome run = Return (overall + length kept).
Proof.
  intros changed lines kept run. split; [|split].
  - intros v. apply elem_of_kept_violations.
  - unfold run. rewrite process_file_spec. unfold trace, file_events. simpl.
    unfold printed. rewrite omap_app. simpl.
    fold kept. generalize (report options filename kept). intros l.
    destruct (_ || _); simpl; induction l; simpl; by f_equal.
  - unfold run. by rewrite process_file_spec.
Qed.
End Filtering.

(** ** The result of the pass *)

Section Result.
Context `{PyText} `{Terminal} `{Env}.
Variable options : Options.

Lemma total_kept_zero provider :
  total_kept options provider = 0
  ↔ ∀ f, f ∈ changed_files provider → kept_in options provider f = [].
Proof.
  unfold total_kept. induction (changed_files provider) as [|f files IH].
  - split; [|done]. by intros _ f ?%elem_of_nil.
  - change (length (kept_in options provider f)
            + sum_list (length <$> (kept_in options provider <$> files)) = 0
            ↔ ∀ f', f' ∈ f :: files → kept_in options provider f' = []).
    split.
    + intros [Hf Hfiles]%Nat.eq_add_0 f' [->|?]%elem_of_cons.
      * by apply length_zero_iff_nil.
      * by apply IH.
    + intros Hall. apply Nat.eq_add_0. split.
      * apply length_zero_iff_nil, Hall. by left.
      * apply IH. intros f' ?. apply Hall. by right.
Qed.

(** C2: once a provider is resolved, [process] returns whether the count
    of kept violations over all changed files is zero: it returns true
    exactly when that count is zero, and one kept violation in one file
    makes it return false. *)
Theorem process_true_iff_no_violation (t : list event) (provider : VCS) :
  get_vcs options = (t, Return provider) →
  outcome (process options)
    = Return (bool_decide (total_kept options provider = 0))
  ∧ (outcome (process options) = Return true
     ↔ total_kept options provider = 0)
  ∧ (∀ f (v : gmap string string),
       f ∈ changed_files provider → v ∈ kept_in options provider f →
       outcome (process options) = Return false).
Proof.
  intros Hv. rewrite (process_spec _ _ _ Hv). unfold outcome. simpl.
  split; [done|split].
  - split.
    + intros [= Hb]. by apply bool_decide_eq_true in Hb.
    + intros Hz. by rewrite bool_decide_true.
  - intros f v Hf Hin. rewrite bool_decide_false; [done|].
    rewrite total_kept_zero. intros Hall.
    rewrite (Hall f Hf) in Hin. by apply elem_of_nil in Hin.
Qed.

(** C4: a line that is not in the fixed format gives no record, and the
    loop over the linter's output passes it by: no event, no exception,
    the list of kept violations as it was; the run is the same with or
    without the line. *)
Theorem non_matching_line_skipped (line : string) :
  ¬ matches_format line →
  parse line = None
  ∧ (∀ changed violations,
       process_violation options changed violations line
       = ([], Return violations))
  ∧ (∀ changed before after,
       kept_violations changed (before ++ line :: after)
       = kept_violations changed (before ++ after))
  ∧ (∀ changed violations before after,
       foldM (process_violation options changed) violations
         (before ++ line :: after)
       = foldM (process_violation options changed) violations
           (before ++ after)).
Proof.
  intros Hno. pose proof (parse_not_format _ Hno) as Hp.
  assert (Hk : ∀ changed before after,
    kept_violations changed (before ++ line :: after)
    = kept_violations changed (before ++ after)).
  { intros. rewrite !kept_violations_app, (kept_violations_cons _ line).
    by rewrite (kept_violations_None _ _ Hp). }
  split_and!; [done| |done|].
  - intros. rewrite process_violation_spec, (kept_violations_None _ _ Hp).
    rewrite app_nil_r. by destruct (standard_flake8_output options).
  - intros. by rewrite !loop_spec, Hk.
Qed.

(** C6: the events of one changed file are the log record when logging is
    on, the run of the linter, and then the printed lines.  With
    [standard_flake8_output] there is one flat line for each kept
    violation and no header; without it there is nothing for a file with
    no kept violation, and otherwise the header followed by one grouped
    line for each kept violation.  The kept violations are in the order
    of the linter's output. *)
Theorem output_layout (provider : VCS) (overall : nat) (filename : string) :
  let cg := color_getter options in
  let lines := splitlines (_execute (flake8_command options filename)) in
  let kept :=
    filter (λ v, on_changed_line (changed_lines provider filename) v)
      (omap parse lines) in
  let flat (v : gmap string string) :=
    cg "filename" (field v "filename") +:+ ":"
    +:+ cg "line" (field v "line_number") +:+ ":"
    +:+ cg "char" (field v "char_number") +:+ ": "
    +:+ cg "code" (field v "error_code") +:+ " "
    +:+ cg "description" (field v "description") in
  let header :=
    cg "header" "Found violations" +:+ ": " +:+ cg "filename" filename in
  let grouped (v : gmap string string) :=
    String "009" "" +:+ cg "code" (field v "error_code") +:+ " @ "
    +:+ cg "line" (field v "line_number") +:+ ":"
    +:+ cg "char" (field v "char_number") +:+ " - "
    +:+ cg "description" (field v "description") in
  trace (process_file options provider overall filename)
  = (if verbose options || debug options
     then [LogInfo filename (changed_lines provider filename)] else [])
    ++ Exec (flake8_command options filename)
    :: (Print <$>
          if standard_flake8_output options then flat <$> kept
          else match kept with
               | [] => []
               | _ :: _ => header :: (grouped <$> kept)
               end).
Proof. intros. by rewrite process_file_spec. Qed.

Lemma printed_file_events provider filename :
  printed (file_events options provider filename)
  = report options filename (kept_in options provider filename).
Proof.
  unfold file_events, printed. rewrite omap_app. simpl.
  generalize (report options filename (kept_in options provider filename)).
  intros l. destruct (_ || _); simpl; induction l; simpl; by f_equal.
Qed.

(** C9: the pass over a changed file looks at the provider only for the
    changed-line set of that file, and a violation parsed from the
    linter's output for the file whose line number is in that set is
    counted and printed, in either layout, though the output line carries
    another filename than the file processed. *)
Theorem foreign_filename_kept (provider : VCS) (overall : nat)
    (filename line : string) (v : gmap string string) (n : string) :
  line ∈ splitlines (_execute (flake8_command options filename)) →
  parse line = Some v →
  v !! "filename" ≠ Some filename →
  v !! "line_number" = Some n →
  n ∈ changed_lines provider filename →
  (∃ count,
     outcome (process_file options provider overall filename) = Return count
     ∧ overall < count)
  ∧ (if standard_flake8_output options
     then flat_text options v else grouped_text options v)
    ∈ printed (trace (process_file options provider overall filename))
  ∧ ∀ provider',
      changed_lines provider' filename = changed_lines provider filename →
      process_file options provider' overall filename
      = process_file options provider overall filename.
Proof.
  intros Hline Hp _ Hn Hin.
  assert (Hv : v ∈ kept_in options provider filename).
  { apply elem_of_kept_violations. split; [by exists line|by exists n]. }
  split_and!.
  - rewrite process_file_spec. unfold outcome. simpl.
    eexists. split; [done|].
    destruct (kept_in options provider filename);
      [by apply elem_of_nil in Hv|simpl; lia].
  - rewrite process_file_spec. unfold trace. simpl.
    rewrite printed_file_events. unfold report.
    destruct (standard_flake8_output options).
    + by apply list_elem_of_fmap_2.
    + destruct (kept_in options provider filename) as [|v' kept] eqn:Hk;
        [by apply elem_of_nil in Hv|].
      right. by apply list_elem_of_fmap_2.
  - intros provider' E. unfold process_file. by rewrite E.
Qed.

Lemma probe_spec registry :
  probe registry
  = (Probe <$> probed_names registry,
     match first_used registry with
     | Some v => Return v
     | None => Raise NotLocatableVCSError
     end).
Proof.
  induction registry as [|[name v] registry IH]; [done|].
  cbn [probe probed_names first_used]. rewrite bind_emit.
  destruct (is_used v); [done|]. by rewrite IH.
Qed.

(** Resolving a provider only probes. *)
Lemma get_vcs_trace :
  printed (trace (get_vcs options)) = []
  ∧ executed (trace (get_vcs options)) = [].
Proof.
  assert (Hp : ∀ names, printed (Probe <$> names) = []
                        ∧ executed (Probe <$> names) = []).
  { induction names as [|x names [IH1 IH2]]; [done|]. by split. }
  unfold get_vcs. destruct (truthy (vcs options)).
  - destruct (registry_get _ _); by split.
  - rewrite probe_spec. apply Hp.
Qed.

(** C10: when the resolved provider lists no changed file, [process] does
    nothing after resolving it: the linter is not run, nothing is printed,
    and the result is true. *)
Theorem no_changed_files (t : list event) (provider : VCS) :
  get_vcs options = (t, Return provider) →
  changed_files provider = [] →
  process options = (t, Return true)
  ∧ executed (trace (process options)) = []
  ∧ printed (trace (process options)) = [].
Proof.
  intros Hv Hfiles.
  assert (Hp : process options = (t, Return true)).
  { rewrite (process_spec _ _ _ Hv). unfold total_kept. rewrite Hfiles.
    simpl. by rewrite app_nil_r. }
  rewrite Hp. destruct get_vcs_trace as [Hprinted Hexecuted].
  rewrite Hv in Hprinted, Hexecuted. done.
Qed.
End Result.

(** ** Resolving the VCS *)

Section Resolution.
Context `{PyText} `{Terminal} `{Env}.
Variable options : Options.

Lemma registry_get_None name registry :
  name ∉ registry.*1 → registry_get name registry = None.
Proof.
  induction registry as [|[n v] registry IH]; [done|].
  intros Hnot. simpl in *. apply not_elem_of_cons in Hnot as [Hne Hnot].
  rewrite decide_False by done. by apply IH.
Qed.

Lemma registry_get_Some name registry :
  name ∈ registry.*1 →
  ∃ v, registry_get name registry = Some v ∧ (name, v) ∈ registry.
Proof.
  induction registry as [|[n v] registry IH]; simpl.
  - by intros ?%elem_of_nil.
  - intros Hin. destruct (decide (n = name)) as [->|Hne].
    + exists v. split; [done|]. by left.
    + apply elem_of_cons in Hin as [->|Hin]; [done|].
      destruct (IH Hin) as (v' & ? & ?). exists v'. split; [done|]. by right.
Qed.

Lemma probed_names_unused registry :
  Forall (λ p, is_used p.2 = false) registry →
  probed_names registry = registry.*1 ∧ first_used registry = None.
Proof.
  induction 1 as [|[n v] registry Hv _ [IH1 IH2]]; [done|].
  simpl in *. rewrite Hv. by rewrite IH1, IH2.
Qed.

Lemma probed_names_first before name v after :
  Forall (λ p, is_used p.2 = false) before → is_used v = true →
  probed_names (before ++ (name, v) :: after) = before.*1 ++ [name]
  ∧ first_used (before ++ (name, v) :: after) = Some v.
Proof.
  intros Hbefore Hv.
  induction Hbefore as [|[n v'] before Hv' _ [IH1 IH2]]; simpl in *.
  - by rewrite Hv.
  - rewrite Hv'. by rewrite IH1, IH2.
Qed.

Lemma truthy_Some name : name ≠ "" → truthy (Some name) = true.
Proof. intros. unfold truthy. by rewrite bool_decide_false. Qed.

(** C5: a named VCS that is not registered raises [UnsupportedVCSError];
    a registered name selects the provider registered under it, and no
    provider is probed; with no VCS named the providers are probed in the
    order of the registry up to the first that is in use, which is
    selected; if none is in use [NotLocatableVCSError] is raised.  Either
    error ends [process] before a file is looked at. *)
Theorem get_vcs_resolution :
  (∀ name, vcs options = Some name → name ≠ "" →
     name ∉ SUPPORTED_VCS.*1 →
     get_vcs options = ([], Raise (UnsupportedVCSError name))
     ∧ process options = ([], Raise (UnsupportedVCSError name)))
  ∧ (∀ name, vcs options = Some name → name ≠ "" →
       name ∈ SUPPORTED_VCS.*1 →
       ∃ v, registry_get name SUPPORTED_VCS = Some v
            ∧ (name, v) ∈ SUPPORTED_VCS
            ∧ get_vcs options = ([], Return v))
  ∧ (∀ before name v after, truthy (vcs options) = false →
       SUPPORTED_VCS = before ++ (name, v) :: after →
       Forall (λ p, is_used p.2 = false) before → is_used v = true →
       get_vcs options = (Probe <$> (before.*1 ++ [name]), Return v))
  ∧ (truthy (vcs options) = false →
       Forall (λ p, is_used p.2 = false) SUPPORTED_VCS →
       get_vcs options
         = (Probe <$> SUPPORTED_VCS.*1, Raise NotLocatableVCSError)
       ∧ process options
         = (Probe <$> SUPPORTED_VCS.*1, Raise NotLocatableVCSError)).
Proof.
  split_and!.
  - intros name Hname Hne Hnot.
    assert (Hg : get_vcs options = ([], Raise (UnsupportedVCSError name))).
    { unfold get_vcs. rewrite Hname, truthy_Some by done. simpl.
      by rewrite registry_get_None. }
    split; [done|]. by apply process_raise.
  - intros name Hname Hne Hin.
    destruct (registry_get_Some _ _ Hin) as (v & Hget & Hv).
    exists v. split_and!; [done..|].
    unfold get_vcs. rewrite Hname, truthy_Some by done. simpl.
    by rewrite Hget.
  - intros before name v after Hno Hreg Hbefore Hv.
    unfold get_vcs. rewrite Hno, probe_spec, Hreg.
    destruct (probed_names_first before name v after Hbefore Hv) as [-> ->].
    done.
  - intros Hno Hall.
    assert (Hg : get_vcs options
              = (Probe <$> SUPPORTED_VCS.*1, Raise NotLocatableVCSError)).
    { unfold get_vcs. rewrite Hno, probe_spec.
      by destruct (probed_names_unused _ Hall) as [-> ->]. }
    split; [done|]. by apply process_raise.
Qed.
End Resolution.

(** ** Colour themes *)

Section Themes.
Context `{Terminal}.
Variable options : Options.

Lemma color_getter_named name component :
  color_theme options = Some name →
  color_getter options component
  = default identity (default ∅ (COLORS !! name) !! component).
Proof. unfold color_getter. by intros ->. Qed.

(** C7: [color_getter] returns the function the selected theme has for the
    component, and the identity when no registered theme is selected or
    the theme has no such component; [get_color_kwargs] reads
    [line_number], [char_number], [error_code], [description], [filename]
    and [header] from the record, an absent key as the empty string, and
    gives each, under [line], [char], [code], [description], [filename]
    and [header], through the colour function of that component. *)
Theorem color_getter_and_kwargs (component : string) :
  (∀ name theme f, color_theme options = Some name →
     COLORS !! name = Some theme → theme !! component = Some f →
     color_getter options component = f)
  ∧ (color_theme options = None → color_getter options component = identity)
  ∧ (∀ name, color_theme options = Some name → COLORS !! name = None →
       color_getter options component = identity)
  ∧ (∀ name theme, color_theme options = Some name →
       COLORS !! name = Some theme → theme !! component = None →
       color_getter options component = identity)
  ∧ (∀ details : gmap string string,
       let get key := default "" (details !! key) in
       get_color_kwargs options details
       = {[ "line" := color_getter options "line" (get "line_number");
            "char" := color_getter options "char" (get "char_number");
            "code" := color_getter options "code" (get "error_code");
            "description" :=
              color_getter options "description" (get "description");
            "filename" := color_getter options "filename" (get "filename");
            "header" := color_getter options "header" (get "header") ]}).
Proof.
  split_and!.
  - intros name theme f Hname Hth Hf.
    rewrite (color_getter_named _ _ Hname), Hth. simpl. by rewrite Hf.
  - unfold color_getter. by intros ->.
  - intros name Hname Hth.
    rewrite (color_getter_named _ _ Hname), Hth. simpl.
    by rewrite lookup_empty.
  - intros name theme Hname Hth Hf.
    rewrite (color_getter_named _ _ Hname), Hth. simpl. by rewrite Hf.
  - intros details get. unfold get_color_kwargs. simpl.
    by rewrite insert_empty.
Qed.


Lemma off_theme_identity (component : string) :
  color_theme options = Some "off" →
  color_getter options component = identity.
Proof.
  intros Hoff. rewrite (color_getter_named _ _ Hoff).
  change (COLORS !! "off") with (Some (list_to_map (M := gmap string (string → string)) [
    ("header", identity); ("filename", identity); ("code", identity);
    ("line", identity); ("char", identity); ("description", identity)])).
  simpl.
  match goal with |- default _ (?m !! _) = _ =>
    assert (Hall : map_Forall (λ _ f, f = identity) m)
  end.
  { repeat apply map_Forall_insert_2; first [done|apply map_Forall_empty]. }
  match goal with |- default _ (?m !! _) = _ =>
    destruct (m !! component) as [f|] eqn:Hf
  end; [|done].
  simpl. by apply Hall in Hf.
Qed.

End Themes.


(** ** The properties on the scenario *)

(** Settle a decidable proposition about concrete data by evaluation. *)
Ltac by_decide := apply (bool_decide_unpack _); vm_compute; exact I.

Section OnTheScenario.
Import Scenario.
#[local] Existing Instance ansi.

Lemma process_true_iff_no_violation_witness :
  @get_vcs env defaults = ([Probe "hg"; Probe "git"], Return git)
  ∧ outcome (@process ascii_text ansi env defaults) = Return false.
Proof.
  split; [reflexivity|].
  refine (eq_trans
    (proj1 (@process_true_iff_no_violation ascii_text ansi env defaults
              [Probe "hg"; Probe "git"] git eq_refl)) _).
  vm_compute. reflexivity.
Defined.

Lemma non_matching_line_skipped_witness :
  ¬ matches_format "1     E501 line too long"
  ∧ @parse ascii_text "1     E501 line too long" = None
  ∧ ∀ violations,
      @process_violation ascii_text ansi defaults {["10"; "12"]} violations
        "1     E501 line too long"
      = ([], Return violations).
Proof.
  assert (Hno : ¬ @matches_format ascii_text "1     E501 line too long").
  { apply parse_None_not_format. vm_compute. reflexivity. }
  split; [exact Hno|].
  destruct (@non_matching_line_skipped ascii_text ansi defaults _ Hno)
    as (Hp & Hv & _).
  split; [exact Hp|]. intros violations. apply Hv.
Defined.

Lemma get_vcs_resolution_witness :
  @process ascii_text ansi env (with_vcs "svn")
    = ([], Raise (UnsupportedVCSError "svn"))
  ∧ @get_vcs env (with_vcs "git") = ([], Return git)
  ∧ @get_vcs env defaults = ([Probe "hg"; Probe "git"], Return git)
  ∧ @process ascii_text ansi unused_env defaults
    = ([Probe "hg"], Raise NotLocatableVCSError).
Proof.
  split_and!.
  - apply (proj1 (@get_vcs_resolution ascii_text ansi env (with_vcs "svn")) "svn");
      [reflexivity|discriminate|].
    by_decide.
  - destruct (proj1 (proj2 (@get_vcs_resolution ascii_text ansi env (with_vcs "git")))
                "git" eq_refl) as (v & Hget & _ & Hv).
    + discriminate.
    + by_decide.
    + injection Hget as <-. exact Hv.
  - apply (proj1 (proj2 (proj2 (@get_vcs_resolution ascii_text ansi env defaults)))
             [("hg", hg)] "git" git []); [reflexivity|reflexivity| |reflexivity].
    repeat constructor.
  - apply (proj2 (proj2 (proj2 (@get_vcs_resolution ascii_text ansi unused_env defaults))));
      [reflexivity|]. repeat constructor.
Defined.

Lemma color_getter_and_kwargs_witness :
  @color_getter ansi defaults "code" = bold_red
  ∧ @color_getter ansi (with_theme None false) "code" = identity
  ∧ @color_getter ansi (with_theme (Some "solarized") false) "code" = identity
  ∧ @color_getter ansi defaults "margin" = identity.
Proof.
  split_and!.
  - apply (proj1 (@color_getter_and_kwargs ansi defaults "code") "dark"
             (list_to_map [
                ("header", bold); ("filename", identity); ("code", bold_red);
                ("line", magenta); ("char", magenta); ("description", yellow)]));
      reflexivity.
  - apply (proj1 (proj2 (@color_getter_and_kwargs ansi (with_theme None false) "code"))).
    reflexivity.
  - apply (proj1 (proj2 (proj2
             (@color_getter_and_kwargs ansi (with_theme (Some "solarized") false) "code")))
             "solarized"); reflexivity.
  - apply (proj1 (proj2 (proj2 (proj2
             (@color_getter_and_kwargs ansi defaults "margin"))))
             "dark"
             (list_to_map [
                ("header", bold); ("filename", identity); ("code", bold_red);
                ("line", magenta); ("char", magenta); ("description", yellow)]));
      reflexivity.
Defined.


Lemma foreign_filename_kept_witness :
  (∃ count,
     outcome (@process_file ascii_text ansi foreign_env
                (with_theme None true) git 0 "a.py") = Return count
     ∧ 0 < count)
  ∧ "b.py:10:1: E501 too long"
    ∈ printed (trace (@process_file ascii_text ansi foreign_env
                        (with_theme None true) git 0 "a.py")).
Proof.
  destruct (@foreign_filename_kept ascii_text ansi foreign_env
              (with_theme None true) git 0
              "a.py" "b.py:10:1: E501 too long"
              (record "b.py" "10" "1" "E501" "too long") "10"
              ltac:(by_decide)
              ltac:(vm_compute; reflexivity)
              ltac:(vm_compute; discriminate)
              ltac:(vm_compute; reflexivity)
              ltac:(by_decide)) as (Hcount & Hprinted & _).
  split; [exact Hcount|exact Hprinted].
Defined.

Lemma no_changed_files_witness :
  @process ascii_text ansi idle_env defaults = ([Probe "idle"], Return true).
Proof.
  apply (proj1 (@no_changed_files ascii_text ansi idle_env defaults
                  [Probe "idle"] idle eq_refl eq_refl)).
Defined.
End OnTheScenario.

(** ** The scenario of the specification *)

Section Examples.
Import Scenario.
#[local] Existing Instance ansi.

(** Lines 10 and 12 are kept, line 11 is not, and the run fails. *)
Example scenario_grouped :
  @process ascii_text ansi env (with_theme (Some "off") false)
  = ([Probe "hg"; Probe "git"; Exec ["/usr/bin/flake8"; "a.py"];
      Print "Found violations: a.py";
      Print (String "009" "E501 @ 10:1 - too long");
      Print (String "009" "W605 @ 12:1 - bad escape")],
     Return false).
Proof. vm_compute. reflexivity. Qed.

Example scenario_flat :
  @process ascii_text ansi env (with_theme (Some "off") true)
  = ([Probe "hg"; Probe "git"; Exec ["/usr/bin/flake8"; "a.py"];
      Print "a.py:10:1: E501 too long";
      Print "a.py:12:1: W605 bad escape"],
     Return false).
Proof. vm_compute. reflexivity. Qed.

(** With a theme that styles, the same lines carry the terminal's codes. *)
Example scenario_dark :
  printed (trace (@process ascii_text ansi env (with_theme (Some "dark") true)))
  = [ "a.py:" +:+ esc "35" "10" +:+ ":" +:+ esc "35" "1" +:+ ": "
      +:+ esc "1;31" "E501" +:+ " " +:+ esc "33" "too long";
      "a.py:" +:+ esc "35" "12" +:+ ":" +:+ esc "35" "1" +:+ ": "
      +:+ esc "1;31" "W605" +:+ " " +:+ esc "33" "bad escape" ].
Proof. vm_compute. reflexivity. Qed.

(** Line numbers are compared as text: [010] is not [10]. *)
Example zero_padded_not_kept :
  @kept_violations ascii_text {["10"]} ["a.py:010:1: E501 too long"] = [].
Proof. vm_compute. reflexivity. Qed.

(** No output of the linter for a changed file: nothing printed. *)
Example silent_linter :
  @process_file ascii_text ansi foreign_env defaults hg 0 "c.py"
  = ([Exec ["/usr/bin/flake8"; "c.py"]], Return 0).
Proof. vm_compute. reflexivity. Qed.
End Examples.

(** * Further properties *)

(** ** What the parser returns *)

Section ParsedRecords.
Context `{PyText}.

Lemma record_dom fn ln ch code desc :
  dom (record fn ln ch code desc)
  = ({["filename"; "line_number"; "char_number"; "error_code"; "description"]}
       : gset string).
Proof.
  unfold record. simpl. rewrite !dom_insert_L, dom_empty_L. set_solver.
Qed.

(** X1: a record the parser returns has the five keys and no other; its
    filename is a non-empty run without white space, its line and character
    numbers are non-empty runs of digits, its code a run of word
    characters, its description free of line feeds; and the text begins with
    these fields between the separators, anything after them starting with
    a line feed. *)
Theorem parsed_record_shape (line : string) (v : gmap string string) :
  parse line = Some v →
  dom v = ({["filename"; "line_number"; "char_number"; "error_code";
             "description"]} : gset string)
  ∧ prefix_ok (field v "filename") (field v "line_number")
      (field v "char_number") (field v "error_code")
  ∧ no_line_feed (field v "description")
  ∧ ∃ rest,
      line = line_text (field v "filename") (field v "line_number")
               (field v "char_number") (field v "error_code")
               (field v "description") +:+ rest
      ∧ (rest = "" ∨ ∃ r, rest = String "010" r).
Proof.
  intros (fn & ln & ch & code & desc & rest & Hok & Hdesc & -> & -> & Hrest)
    %parse_Some_inv.
  split; [apply record_dom|].
  change (field (record fn ln ch code desc) "filename") with fn.
  change (field (record fn ln ch code desc) "line_number") with ln.
  change (field (record fn ln ch code desc) "char_number") with ch.
  change (field (record fn ln ch code desc) "error_code") with code.
  change (field (record fn ln ch code desc) "description") with desc.
  split_and!; [done..|]. exists rest. split; [|done].
  unfold line_text. by rewrite !string_app_assoc.
Qed.

(** X2: a line that is empty or begins with white space is never taken for a
    violation. *)
Theorem indented_line_not_parsed (line : string) :
  line = "" ∨ (∃ c s, line = String c s ∧ re_space c = true) →
  parse line = None.
Proof.
  intros Hline. destruct (parse line) as [v|] eqn:Hv; [|done].
  apply parse_Some_inv in Hv
    as (fn & ln & ch & code & desc & rest & (Hne & Hfn & _) & _ & E & _).
  destruct fn as [|c' fn]; [done|]. unfold line_text in E.
  rewrite string_app_cons in E. simpl in Hfn.
  apply andb_prop in Hfn as [Hc' _].
  destruct Hline as [->|(c & s & -> & Hc)]; [done|].
  injection E as -> _. by rewrite Hc in Hc'.
Qed.
End ParsedRecords.

Lemma parsed_record_shape_witness :
  dom (record "a.py" "10" "1" "E501" "too long")
  = ({["filename"; "line_number"; "char_number"; "error_code"; "description"]}
       : gset string).
Proof.
  apply (proj1 (@parsed_record_shape ascii_text "a.py:10:1: E501 too long"
                  (record "a.py" "10" "1" "E501" "too long")
                  ltac:(vm_compute; reflexivity))).
Defined.

Lemma indented_line_not_parsed_witness :
  @parse ascii_text "    x = 1  # E501" = None.
Proof.
  apply (@indented_line_not_parsed ascii_text "    x = 1  # E501").
  right. exists " "%char, "   x = 1  # E501". split; reflexivity.
Defined.

(** ** From the linter's line to the printed line and back *)

Section RoundTrip.
Context `{PyText} `{Terminal} `{Env}.
Variable options : Options.

Lemma plain_theme_identity (component : string) :
  color_theme options = None ∨ color_theme options = Some "off" →
  color_getter options component = identity.
Proof.
  intros [Hnone|Hoff]; [|by apply off_theme_identity].
  unfold color_getter. by rewrite Hnone.
Qed.

Lemma flat_text_record fn ln ch code desc :
  color_theme options = None ∨ color_theme options = Some "off" →
  flat_text options (record fn ln ch code desc) = line_text fn ln ch code desc.
Proof.
  intros Hplain. unfold flat_text. by rewrite !(plain_theme_identity _ Hplain).
Qed.

Lemma parse_whole_line (line : string) (v : gmap string string) :
  no_line_feed line → parse line = Some v →
  ∃ fn ln ch code desc,
    v = record fn ln ch code desc ∧ line = line_text fn ln ch code desc.
Proof.
  intros Hlf Hv.
  apply parse_Some_inv in Hv
    as (fn & ln & ch & code & desc & rest & _ & _ & -> & -> & Hrest).
  exists fn, ln, ch, code, desc. split; [done|].
  destruct Hrest as [->|[r ->]]; [by rewrite string_app_nil_r|].
  unfold line_text, no_line_feed in Hlf.
  rewrite !string_forallb_app in Hlf. simpl in Hlf.
  by rewrite !andb_false_r in Hlf.
Qed.

(** X3: with no theme or the theme [off], formatting the keyword arguments
    of a parsed record with the flat template gives the very line of the
    linter it was parsed from, and that line is what is printed. *)
Theorem format_of_parsed_line (line : string) (v : gmap string string) :
  color_theme options = None ∨ color_theme options = Some "off" →
  no_line_feed line →
  parse line = Some v →
  format FLAKE8_OUTPUT (get_color_kwargs options v) = ([], Return line)
  ∧ print_formatted options FLAKE8_OUTPUT v = ([Print line], Return ()).
Proof.
  intros Hplain Hlf Hv.
  destruct (parse_whole_line _ _ Hlf Hv) as (fn & ln & ch & code & desc & -> & ->).
  rewrite print_flat, format_flat. by rewrite flat_text_record.
Qed.

Lemma flat_text_kept_lines changed (lines : list string) :
  color_theme options = None ∨ color_theme options = Some "off" →
  Forall no_line_feed lines →
  flat_text options <$> kept_violations changed lines
  = filter (λ line, line_kept changed line) lines.
Proof.
  intros Hplain Hlines.
  induction Hlines as [|line lines Hline _ IH]; [done|].
  rewrite kept_violations_cons, fmap_app, IH, filter_cons.
  assert (Hk : line_kept changed line
               = match parse line with
                 | Some v => on_changed_line changed v
                 | None => false
                 end) by done.
  destruct (parse line) as [v|] eqn:Hv.
  - rewrite (kept_violations_Some _ _ _ Hv).
    destruct (parse_whole_line _ _ Hline Hv)
      as (fn & ln & ch & code & desc & -> & ->).
    destruct (on_changed_line changed _).
    + rewrite decide_True by (by rewrite Hk). simpl.
      by rewrite flat_text_record.
    + by rewrite decide_False by (rewrite Hk; intros []).
  - rewrite (kept_violations_None _ _ Hv).
    by rewrite decide_False by (rewrite Hk; intros []).
Qed.

(** X4: in the standard layout with no theme or the theme [off], what is
    printed for a file is the linter's own output with the lines that are
    not kept left out: the same text, in the same order. *)
Theorem standard_plain_prints_linter_lines (provider : VCS) (overall : nat)
    (filename : string) :
  standard_flake8_output options = true →
  color_theme options = None ∨ color_theme options = Some "off" →
  printed (trace (process_file options provider overall filename))
  = filter (λ line, line_kept (changed_lines provider filename) line)
      (splitlines (_execute (flake8_command options filename))).
Proof.
  intros Hstd Hplain. rewrite process_file_spec. unfold trace. simpl.
  rewrite printed_file_events. unfold report. rewrite Hstd.
  apply flat_text_kept_lines; [done|].
  apply Forall_forall. intros line. apply splitlines_no_line_feed.
Qed.
End RoundTrip.

(** ** The linter's command line *)

Section Command.
Context `{PyText} `{Env}.
Variable options : Options.

Lemma split_go_tokens (s cur : string) :
  string_forallb (λ c, negb (str_isspace c)) cur = true →
  Forall (λ token, token ≠ ""
                   ∧ string_forallb (λ c, negb (str_isspace c)) token = true)
    (split_go cur s).
Proof.
  revert cur. induction s as [|c s IH]; intros cur Hcur; simpl.
  - case_decide; [constructor|]. by repeat constructor.
  - destruct (str_isspace c) eqn:Hc.
    + apply Forall_app. split; [|by apply IH].
      case_decide; [constructor|]. by repeat constructor.
    + apply IH. rewrite string_forallb_app, Hcur. simpl. by rewrite Hc.
Qed.

Lemma split_go_spaces (s cur : string) :
  string_forallb str_isspace s = true →
  split_go cur s = if decide (cur = "") then [] else [cur].
Proof.
  revert cur. induction s as [|c s IH]; intros cur Hs; [done|].
  simpl in *. apply andb_prop in Hs as [-> Hs]. rewrite (IH "" Hs).
  simpl. by rewrite app_nil_r.
Qed.

Lemma filter_nonempty_id (l : list string) :
  Forall (λ s, s ≠ "") l → filter (λ s, s ≠ "") l = l.
Proof.
  induction 1 as [|x l Hx _ IH]; [done|].
  rewrite filter_cons, decide_True by done. by rewrite IH.
Qed.

Lemma flake8_command_unfold (filename : string) :
  flake8_command options filename
  = (if decide (FLAKE8 = "") then [] else [FLAKE8])
    ++ split (default "" (flake8_options options))
    ++ (if decide (filename = "") then [] else [filename]).
Proof.
  unfold flake8_command.
  rewrite !filter_app, (filter_nonempty_id (split _)).
  - rewrite !filter_cons, !filter_nil. by repeat case_decide.
  - eapply Forall_impl; [by apply split_go_tokens|]. by intros ? [? _].
Qed.

(** X5: the command is the linter's path, the tokens of [flake8_options] and
    the filename, in this order; the path or the filename is left out when
    it is empty, and no token of the options is, each being a non-empty run
    without white space. *)
Theorem flake8_command_shape (filename : string) :
  let tokens := split (default "" (flake8_options options)) in
  flake8_command options filename
  = (if decide (FLAKE8 = "") then [] else [FLAKE8])
    ++ tokens
    ++ (if decide (filename = "") then [] else [filename])
  ∧ Forall (λ token, token ≠ ""
                     ∧ string_forallb (λ c, negb (str_isspace c)) token = true)
      tokens.
Proof.
  intros tokens. split.
  - apply flake8_command_unfold.
  - by apply split_go_tokens.
Qed.

(** X6: with no options, or options that are white space only, the linter is
    run on the file and nothing else. *)
Theorem flake8_command_no_options (filename : string) :
  string_forallb str_isspace (default "" (flake8_options options)) = true →
  FLAKE8 ≠ "" → filename ≠ "" →
  flake8_command options filename = [FLAKE8; filename].
Proof.
  intros Hspaces Hpath Hfile.
  rewrite flake8_command_unfold.
  unfold split. rewrite (split_go_spaces _ "" Hspaces).
  rewrite (decide_False (P := FLAKE8 = "")) by done.
  rewrite (decide_False (P := filename = "")) by done. done.
Qed.
End Command.

Lemma format_of_parsed_line_witness :
  @print_formatted Scenario.ansi (Scenario.with_theme (Some "off") true)
    FLAKE8_OUTPUT (record "a.py" "10" "1" "E501" "too long")
  = ([Print "a.py:10:1: E501 too long"], Return ()).
Proof.
  apply (proj2 (@format_of_parsed_line ascii_text Scenario.ansi
                  (Scenario.with_theme (Some "off") true)
                  "a.py:10:1: E501 too long"
                  (record "a.py" "10" "1" "E501" "too long")
                  (or_intror eq_refl) eq_refl
                  ltac:(vm_compute; reflexivity))).
Defined.

Lemma standard_plain_prints_linter_lines_witness :
  printed (trace (@process_file ascii_text Scenario.ansi Scenario.env
                    (Scenario.with_theme None true) Scenario.git 0 "a.py"))
  = ["a.py:10:1: E501 too long"; "a.py:12:1: W605 bad escape"].
Proof.
  refine (eq_trans
    (@standard_plain_prints_linter_lines ascii_text Scenario.ansi Scenario.env
       (Scenario.with_theme None true) Scenario.git 0 "a.py"
       eq_refl (or_introl eq_refl)) _).
  vm_compute. reflexivity.
Defined.

Lemma flake8_command_no_options_witness :
  @flake8_command ascii_text Scenario.env Scenario.defaults "a.py"
  = ["/usr/bin/flake8"; "a.py"].
Proof.
  apply (@flake8_command_no_options ascii_text Scenario.env Scenario.defaults
           "a.py" eq_refl); discriminate.
Defined.

(** ** The whole pass *)

Section Pass.
Context `{PyText} `{Terminal} `{Env}.
Variable options : Options.

Lemma prints_projections (l : list string) :
  printed (Print <$> l) = l ∧ executed (Print <$> l) = []
  ∧ logged (Print <$> l) = [].
Proof.
  induction l as [|x l (IH1 & IH2 & IH3)]; [done|].
  split_and!; [|done..].
  change (x :: printed (Print <$> l) = x :: l). by rewrite IH1.
Qed.

Lemma executed_file_events provider filename :
  executed (file_events options provider filename)
  = [flake8_command options filename].
Proof.
  unfold file_events, executed. rewrite omap_app.
  destruct (prints_projections
              (report options filename (kept_in options provider filename)))
    as (_ & Hl & _).
  change (omap _ (Exec ?c :: ?l)) with (c :: executed l).
  rewrite Hl. by destruct (_ || _).
Qed.


Lemma omap_concat_fmap {A B C} (g : B → option C) (f : A → list B)
    (h : A → list C) (l : list A) :
  (∀ x, omap g (f x) = h x) →
  omap g (concat (f <$> l)) = concat (h <$> l).
Proof.
  intros Hf. induction l as [|x l IH]; [done|].
  rewrite !fmap_cons, !concat_cons, omap_app, Hf, IH. done.
Qed.

Lemma get_vcs_probes_only t (r : result VCS) :
  get_vcs options = (t, r) →
  printed t = [] ∧ executed t = [] ∧ logged t = [].
Proof.
  assert (Hp : ∀ names, printed (Probe <$> names) = []
                        ∧ executed (Probe <$> names) = []
                        ∧ logged (Probe <$> names) = []).
  { induction names as [|x names (IH1 & IH2 & IH3)]; [done|]. by split_and!. }
  unfold get_vcs. destruct (truthy (vcs options)).
  - destruct (registry_get _ _); by intros [= <- <-].
  - rewrite probe_spec. intros [= <- <-]. apply Hp.
Qed.

(** X7: once a provider is resolved, the linter is run exactly once for each
    changed file, in the order the provider lists them, whatever the linter
    answers. *)
Theorem linter_runs_once_per_file (t : list event) (provider : VCS) :
  get_vcs options = (t, Return provider) →
  executed (trace (process options))
  = flake8_command options <$> changed_files provider.
Proof.
  intros Hv. rewrite (process_spec _ _ _ Hv). unfold trace, executed. simpl.
  rewrite omap_app.
  destruct (get_vcs_probes_only _ _ Hv) as (_ & Ht & _).
  unfold executed in Ht. rewrite Ht. simpl.
  rewrite (omap_concat_fmap _ _ (λ f, [flake8_command options f])).
  - by induction (changed_files provider) as [|f l IH]; [|simpl; f_equal].
  - intros f. apply executed_file_events.
Qed.

(** X8: what the pass prints is the reports of the changed files one after the
    other, in the order the provider lists them: nothing of a file comes
    after something of a later file. *)
Theorem printed_file_by_file (t : list event) (provider : VCS) :
  get_vcs options = (t, Return provider) →
  printed (trace (process options))
  = concat ((λ f, report options f (kept_in options provider f))
              <$> changed_files provider).
Proof.
  intros Hv. rewrite (process_spec _ _ _ Hv). unfold trace, printed. simpl.
  rewrite omap_app.
  destruct (get_vcs_probes_only _ _ Hv) as (Ht & _ & _).
  unfold printed in Ht. rewrite Ht. simpl.
  apply omap_concat_fmap. intros f. apply printed_file_events.
Qed.


Lemma report_length filename (kept : list (gmap string string)) :
  length (report options filename kept)
  = length kept
    + if standard_flake8_output options then 0
      else if decide (kept ≠ []) then 1 else 0.
Proof.
  unfold report. destruct (standard_flake8_output options).
  - rewrite length_fmap. lia.
  - destruct kept as [|v kept]; [done|].
    rewrite decide_True by done. simpl. rewrite length_fmap. lia.
Qed.

(** X10: the number of lines printed: one for each kept violation, and in the
    grouped layout one more for each changed file that has one. *)
Theorem printed_line_count (t : list event) (provider : VCS) :
  get_vcs options = (t, Return provider) →
  length (printed (trace (process options)))
  = total_kept options provider
    + if standard_flake8_output options then 0
      else length (filter (λ f, kept_in options provider f ≠ [])
                     (changed_files provider)).
Proof.
  intros Hv. rewrite (process_spec _ _ _ Hv). unfold trace, printed. simpl.
  rewrite omap_app.
  destruct (get_vcs_probes_only _ _ Hv) as (Ht & _ & _).
  unfold printed in Ht. rewrite Ht. simpl.
  rewrite (omap_concat_fmap _ _
             (λ f, report options f (kept_in options provider f)))
    by (intros; apply printed_file_events).
  unfold total_kept.
  induction (changed_files provider) as [|f files IH].
  - simpl. by destruct (standard_flake8_output options).
  - rewrite !fmap_cons, concat_cons, length_app, IH, report_length, filter_cons.
    change (sum_list (?x :: ?l)) with (x + sum_list l).
    destruct (standard_flake8_output options); [lia|].
    case_decide; simpl; lia.
Qed.

(** X11: a file none of whose lines changed: the linter is still run on it, but
    nothing is printed and the count stays as it was. *)
Theorem nothing_changed_nothing_printed (provider : VCS) (overall : nat)
    (filename : string) :
  changed_lines provider filename = ∅ →
  executed (trace (process_file options provider overall filename))
    = [flake8_command options filename]
  ∧ printed (trace (process_file options provider overall filename)) = []
  ∧ outcome (process_file options provider overall filename) = Return overall.
Proof.
  intros Hnone. rewrite process_file_spec. unfold trace, outcome. simpl.
  rewrite executed_file_events, printed_file_events.
  assert (Hk : kept_in options provider filename = []).
  { unfold kept_in, kept_violations. rewrite Hnone.
    induction (omap parse _) as [|v l IH]; [done|].
    rewrite filter_cons, IH. unfold on_changed_line.
    destruct (v !! "line_number"); [|done].
    by rewrite bool_decide_false by set_solver. }
  rewrite Hk. split_and!; [done| |by rewrite Nat.add_0_r].
  unfold report. by destruct (standard_flake8_output options).
Qed.

(** X12: the dictionary lookups of the pass never fail: [process] does not
    raise [KeyError], the step of the loop over the linter's lines returns
    for every line, and each of the three templates formats the keyword
    arguments made from any record. *)
Theorem no_key_error :
  (∀ key, outcome (process options) ≠ Raise (KeyError key))
  ∧ (∀ changed violations line,
       ∃ violations',
         outcome (process_violation options changed violations line)
         = Return violations')
  ∧ (∀ template details,
       template ∈ [FLAKE8_OUTPUT; HEADER_OUTPUT; SIMPLE_OUTPUT] →
       ∃ text,
         format template (get_color_kwargs options details)
         = ([], Return text)).
Proof.
  split_and!.
  - intros key. destruct (get_vcs options) as [t [provider|e]] eqn:Hv.
    + by rewrite (process_spec _ _ _ Hv).
    + rewrite (process_raise _ _ _ Hv). unfold outcome. simpl.
      unfold get_vcs in Hv. destruct (truthy (vcs options)).
      * destruct (registry_get _ _); unfold raise, mret, M_ret in Hv;
          simplify_eq; by intros [=].
      * rewrite probe_spec in Hv.
        destruct (first_used _); simplify_eq; by intros [=].
  - intros changed violations line. rewrite process_violation_spec.
    by eexists.
  - intros template details Hin.
    apply elem_of_cons in Hin as [->|Hin]; [eexists; by apply format_FLAKE8_OUTPUT|].
    apply elem_of_cons in Hin as [->|Hin]; [eexists; by apply format_HEADER_OUTPUT|].
    apply list_elem_of_singleton in Hin as ->.
    eexists; by apply format_SIMPLE_OUTPUT.
Qed.

(** X13: when no VCS is named and [get_vcs] returns a provider, it is registered
    and in use, every provider before it in the registry is not in use, and
    those and it are the providers that were probed. *)
Theorem probe_selects_first_used (t : list event) (provider : VCS) :
  truthy (vcs options) = false →
  get_vcs options = (t, Return provider) →
  is_used provider = true
  ∧ ∃ before name after,
      SUPPORTED_VCS = before ++ (name, provider) :: after
      ∧ Forall (λ p, is_used p.2 = false) before
      ∧ t = Probe <$> (before.*1 ++ [name]).
Proof.
  intros Hno Hv. unfold get_vcs in Hv. rewrite Hno, probe_spec in Hv.
  destruct (first_used SUPPORTED_VCS) as [v|] eqn:Hfirst; [|done].
  injection Hv as <- <-. clear Hno.
  induction SUPPORTED_VCS as [|[n v'] registry IH]; simpl in *; [done|].
  destruct (is_used v') eqn:Hu.
  - injection Hfirst as ->. split; [done|].
    exists [], n, registry. by split_and!.
  - destruct (IH Hfirst) as (Hused & before & name & after & -> & Hb & Ht).
    split; [done|]. exists ((n, v') :: before), name, after.
    split_and!; [done|by constructor|]. simpl. by f_equal.
Qed.
End Pass.

(** ** What does not bear on the result *)

Section Presentation.
Context `{PyText} `{Env}.

Lemma kept_in_options (o1 o2 : Options) provider filename :
  flake8_options o1 = flake8_options o2 →
  kept_in o1 provider filename = kept_in o2 provider filename.
Proof. intros E. unfold kept_in, flake8_command. by rewrite E. Qed.

Lemma get_vcs_options (o1 o2 : Options) :
  vcs o1 = vcs o2 → get_vcs o1 = get_vcs o2.
Proof. intros E. unfold get_vcs. by rewrite E. Qed.

(** X14: the theme, the terminal, the layout and the verbosity change neither
    the result of the pass nor the runs of the linter: two passes whose
    options agree on [vcs] and [flake8_options] end alike and run the same
    commands. *)
Theorem presentation_does_not_filter (T1 T2 : Terminal) (o1 o2 : Options) :
  vcs o1 = vcs o2 →
  flake8_options o1 = flake8_options o2 →
  outcome (@process _ T1 _ o1) = outcome (@process _ T2 _ o2)
  ∧ executed (trace (@process _ T1 _ o1))
    = executed (trace (@process _ T2 _ o2)).
Proof.
  intros Hvcs Hopts. pose proof (get_vcs_options o1 o2 Hvcs) as Hg.
  destruct (get_vcs o2) as [t [provider|e]] eqn:Hv.
  - rewrite (@process_spec _ T1 _ o1 _ _ Hg), (@process_spec _ T2 _ o2 _ _ Hv).
    unfold outcome, trace, executed. simpl. rewrite !omap_app.
    assert (Hk : ∀ f, kept_in o1 provider f = kept_in o2 provider f).
    { intros f. by apply kept_in_options. }
    assert (Hks : kept_in o1 provider <$> changed_files provider
                  = kept_in o2 provider <$> changed_files provider).
    { induction (changed_files provider) as [|f l IH]; [done|].
      by rewrite !fmap_cons, Hk, IH. }
    split.
    + unfold total_kept. by rewrite Hks.
    + f_equal.
      rewrite (omap_concat_fmap _ _ (λ f, [flake8_command o1 f]))
        by (intros; apply (@executed_file_events _ T1)).
      rewrite (omap_concat_fmap _ _ (λ f, [flake8_command o2 f]))
        by (intros; apply (@executed_file_events _ T2)).
      unfold flake8_command. by rewrite Hopts.
  - by rewrite (@process_raise _ T1 _ o1 _ _ Hg), (@process_raise _ T2 _ o2 _ _ Hv).
Qed.

Lemma kept_violations_sublist (changed changed' : gset string)
    (lines : list string) :
  changed ⊆ changed' →
  kept_violations changed lines `sublist_of` kept_violations changed' lines
  ∧ length (kept_violations changed' lines) ≤ length lines.
Proof.
  intros Hsub. unfold kept_violations. split.
  - induction (omap parse lines) as [|v l IH]; [done|].
    rewrite !filter_cons.
    assert (Hv : on_changed_line changed v → on_changed_line changed' v).
    { unfold on_changed_line. destruct (v !! "line_number"); [|done].
      rewrite !bool_decide_spec. apply Hsub. }
    destruct (decide (on_changed_line changed v)) as [Hon|Hoff].
    + rewrite decide_True by auto. by apply sublist_skip.
    + destruct (decide (on_changed_line changed' v)); [by apply sublist_cons|done].
  - etrans; [apply length_filter|].
    induction lines as [|line lines IH]; [done|].
    change (omap parse (line :: lines))
      with (match parse line with
            | Some v => v :: omap parse lines
            | None => omap parse lines
            end).
    destruct (parse line); simpl length; lia.
Qed.
End Presentation.

Section Widening.
Context `{PyText} `{Terminal} `{Env}.
Variable options : Options.

Lemma report_sublist filename (kept kept' : list (gmap string string)) :
  kept `sublist_of` kept' →
  report options filename kept `sublist_of` report options filename kept'.
Proof.
  intros Hsub. unfold report. destruct (standard_flake8_output options).
  - by apply fmap_sublist.
  - destruct kept as [|v kept]; [apply sublist_nil_l|].
    destruct kept' as [|v' kept']; [by apply sublist_nil_r in Hsub|].
    apply sublist_skip. by apply fmap_sublist.
Qed.

(** X15: widening the changed-line set of a file only adds to what the pass
    over the file prints and counts: what was printed before is still
    printed, in the same order, the count does not go down, and it never
    grows by more than the number of lines the linter wrote. *)
Theorem widening_changed_lines (provider provider' : VCS) (overall : nat)
    (filename : string) :
  changed_lines provider filename ⊆ changed_lines provider' filename →
  printed (trace (process_file options provider overall filename))
    `sublist_of`
    printed (trace (process_file options provider' overall filename))
  ∧ ∃ count count',
      outcome (process_file options provider overall filename) = Return count
      ∧ outcome (process_file options provider' overall filename)
        = Return count'
      ∧ count ≤ count'
      ∧ count' ≤ overall
                 + length (splitlines (_execute (flake8_command options filename))).
Proof.
  intros Hsub. rewrite !process_file_spec. unfold trace, outcome. simpl.
  rewrite !printed_file_events.
  destruct (kept_violations_sublist _ _
              (splitlines (_execute (flake8_command options filename))) Hsub)
    as [Hkept Hlen].
  split; [by apply report_sublist|].
  do 2 eexists. split_and!; [done..| |].
  - apply sublist_length in Hkept. unfold kept_in. lia.
  - unfold kept_in. lia.
Qed.
End Widening.

(** ** The lines of the linter's output *)

Section Lines.
Context `{PyText} `{Env}.
Variable options : Options.

Lemma splitlines_go_line (cur a rest : string) :
  string_forallb (λ c, negb (str_linebreak c)) a = true →
  splitlines_go cur (a +:+ String "010" rest)
  = (cur +:+ a) :: splitlines_go "" rest.
Proof.
  revert cur. induction a as [|c a IH]; intros cur Ha.
  - rewrite string_app_nil_l, string_app_nil_r. simpl.
    rewrite lf_is_linebreak. f_equal. by destruct rest.
  - simpl in Ha. apply andb_prop in Ha as [Hc Ha].
    rewrite string_app_cons. simpl.
    destruct (str_linebreak c); [done|].
    by rewrite IH, string_app_snoc.
Qed.

(** X16: output written one line at a time, each ended by a line feed, is read
    back as the same lines, empty ones included; the loop then keeps of
    these lines what it keeps of the output. *)
Theorem splitlines_unlines (lines : list string) :
  Forall (λ line, string_forallb (λ c, negb (str_linebreak c)) line = true)
    lines →
  splitlines (unlines lines) = lines
  ∧ ∀ provider filename,
      _execute (flake8_command options filename) = unlines lines →
      kept_in options provider filename
      = kept_violations (changed_lines provider filename) lines.
Proof.
  intros Hlines.
  assert (Hsplit : splitlines (unlines lines) = lines).
  { unfold splitlines. induction Hlines as [|line lines Hline _ IH]; [done|].
    simpl. by rewrite (splitlines_go_line _ _ _ Hline), IH. }
  split; [done|]. intros provider filename Hout.
  unfold kept_in. by rewrite Hout, Hsplit.
Qed.
End Lines.

(** ** The further properties on the scenario *)

Section FurtherOnTheScenario.
Import Scenario.
#[local] Existing Instance ansi.

Lemma linter_runs_once_per_file_witness :
  executed (trace (@process ascii_text ansi env defaults))
  = [["/usr/bin/flake8"; "a.py"]].
Proof.
  refine (eq_trans
    (@linter_runs_once_per_file ascii_text ansi env defaults
       [Probe "hg"; Probe "git"] git eq_refl) _).
  vm_compute. reflexivity.
Defined.

Lemma printed_file_by_file_witness :
  printed (trace (@process ascii_text ansi env (with_theme None false)))
  = ["Found violations: a.py";
     String "009" "E501 @ 10:1 - too long";
     String "009" "W605 @ 12:1 - bad escape"].
Proof.
  refine (eq_trans
    (@printed_file_by_file ascii_text ansi env (with_theme None false)
       [Probe "hg"; Probe "git"] git eq_refl) _).
  vm_compute. reflexivity.
Defined.


Lemma printed_line_count_witness :
  length (printed (trace (@process ascii_text ansi env defaults))) = 3.
Proof.
  refine (eq_trans
    (@printed_line_count ascii_text ansi env defaults
       [Probe "hg"; Probe "git"] git eq_refl) _).
  vm_compute. reflexivity.
Defined.

Lemma nothing_changed_nothing_printed_witness :
  printed (trace (@process_file ascii_text ansi env defaults hg 0 "a.py")) = [].
Proof.
  apply (proj1 (proj2
    (@nothing_changed_nothing_printed ascii_text ansi env defaults hg 0 "a.py"
       eq_refl))).
Defined.

Lemma probe_selects_first_used_witness : is_used git = true.
Proof.
  apply (proj1 (@probe_selects_first_used env defaults
                  [Probe "hg"; Probe "git"] git eq_refl eq_refl)).
Defined.

Lemma presentation_does_not_filter_witness :
  outcome (@process ascii_text ansi env defaults)
  = outcome (@process ascii_text ansi env (with_theme (Some "off") true)).
Proof.
  apply (proj1 (@presentation_does_not_filter ascii_text env ansi ansi
                  defaults (with_theme (Some "off") true) eq_refl eq_refl)).
Defined.

(** A provider for which line 10 of [a.py] alone has changed. *)
Lemma widening_changed_lines_witness :
  printed (trace (@process_file ascii_text ansi env (with_theme None true)
                    {| is_used := true; changed_files := ["a.py"];
                       changed_lines := λ _, {["10"]} |} 0 "a.py"))
  `sublist_of`
  printed (trace (@process_file ascii_text ansi env (with_theme None true)
                    git 0 "a.py")).
Proof.
  apply (proj1 (@widening_changed_lines ascii_text ansi env
                  (with_theme None true)
                  {| is_used := true; changed_files := ["a.py"];
                     changed_lines := λ _, {["10"]} |} git 0 "a.py"
                  ltac:(by_decide))).
Defined.

Lemma no_key_error_witness :
  ∃ text,
    format SIMPLE_OUTPUT (@get_color_kwargs ansi defaults ∅)
    = ([], Return text).
Proof.
  apply (proj2 (proj2 (@no_key_error ascii_text ansi env defaults))
           SIMPLE_OUTPUT ∅).
  do 2 right. left.
Defined.

Lemma splitlines_unlines_witness :
  @splitlines ascii_text (unlines ["a.py:10:1: E501 too long"; ""; "1 E501"])
  = ["a.py:10:1: E501 too long"; ""; "1 E501"].
Proof.
  apply (proj1 (@splitlines_unlines ascii_text env defaults
                  ["a.py:10:1: E501 too long"; ""; "1 E501"]
                  ltac:(repeat constructor))).
Defined.
End FurtherOnTheScenario.
